(** * summarize-beacon: a shallow embedding of [summarize-beacon.py]

    The script queries the NIST randomness beacon, extracts the
    [<outputValue>] field of each record, and prints how often every
    character occurs in the concatenated values.

    Python values are embedded as follows: [int] is [Z], [str] is [string]
    (8-bit characters: every string the script handles comes out of
    [str(bytes)], which is pure ASCII), [bytes] is [list byte], a [dict] is a
    [gmap].  Effects (standard output, HTTP requests, sleeping, the calls
    into the Chronyk library) are recorded, in order, in a trace of events;
    exceptions, [SystemExit] among them, abort the computation and carry the
    trace reached so far.  The outside world (the beacon server, the clock
    behind Chronyk, the user's Ctrl-C) is a record of oracles that answer
    from the history of events. *)

From Stdlib Require Import ZArith Ascii String List Lia DecimalString.
From Stdlib.Strings Require Import Byte.
From Stdlib Require DecimalZ DecimalPos.
From stdpp Require Import gmap strings list sorting.

Local Open Scope Z_scope.

(** ** Python built-ins on [str], [int] and [bytes] *)

Module Py.

Definition nl : ascii := "010"%char.
Definition dquote : ascii := "034"%char.
Definition squote : ascii := "039"%char.
Definition backslash : ascii := "092"%char.

(** [str(n)] for an [int]: decimal digits, a leading minus sign when
    negative. *)
Definition str_int (n : Z) : string := NilZero.string_of_int (Z.to_int n).

(** [sub in s[0:len(sub)]], that is [s.startswith(sub)]. *)
Fixpoint startswith (s sub : string) : bool :=
  match sub, s with
  | EmptyString, _ => true
  | String a sub', String b s' => Ascii.eqb a b && startswith s' sub'
  | String _ _, EmptyString => false
  end.

(** [s[n:]]. *)
Fixpoint drop (n : nat) (s : string) : string :=
  match n, s with
  | O, _ => s
  | S n', String _ s' => drop n' s'
  | S _, EmptyString => EmptyString
  end.

(** [s.count(symbol)] for a one-character [symbol]. *)
Fixpoint count (s : string) (symbol : ascii) : nat :=
  match s with
  | EmptyString => O
  | String c s' =>
      if Ascii.eqb c symbol then S (count s' symbol) else count s' symbol
  end.

(** [s.replace(symbol, "")] for a one-character [symbol]. *)
Fixpoint remove (s : string) (symbol : ascii) : string :=
  match s with
  | EmptyString => EmptyString
  | String c s' =>
      if Ascii.eqb c symbol then remove s' symbol
      else String c (remove s' symbol)
  end.

(** Characters compare by code point. *)
Definition char_le (a b : ascii) : Prop := (N_of_ascii a <= N_of_ascii b)%N.

#[global] Instance char_le_dec : RelDecision char_le.
Proof. intros a b. unfold char_le. apply _. Defined.

(** [sorted(s)]: the list of the characters of [s], ascending. *)
Definition sorted (s : string) : list ascii :=
  merge_sort char_le (list_ascii_of_string s).

(** [''.join(l)] for a list of one-character strings. *)
Definition join (l : list ascii) : string := string_of_list_ascii l.

(** [str(b)] for [b : bytes] is the [repr] of [b]: [b'...'], written with
    double quotes when [b] holds a single quote and no double quote. *)
Definition hexdigit (n : N) : ascii :=
  nth (N.to_nat n) (list_ascii_of_string "0123456789abcdef") "0"%char.

Definition repr_byte (quote c : ascii) : string :=
  let code := N_of_ascii c in
  if Ascii.eqb c quote || Ascii.eqb c backslash then
    String backslash (String c EmptyString)
  else if Ascii.eqb c "009"%char then String backslash "t"
  else if Ascii.eqb c "010"%char then String backslash "n"
  else if Ascii.eqb c "013"%char then String backslash "r"
  else if (code <? 32)%N || (127 <=? code)%N then
    String backslash
      (String "x"%char
         (String (hexdigit (N.shiftr (N.land code 240) 4))
            (String (hexdigit (N.land code 15)) EmptyString)))
  else String c EmptyString.

Definition str_bytes (b : list byte) : string :=
  let cs := map ascii_of_byte b in
  let quote :=
    if existsb (Ascii.eqb squote) cs && negb (existsb (Ascii.eqb dquote) cs)
    then dquote else squote in
  String "b"%char
    (String quote
       (String.concat "" (map (repr_byte quote) cs) +:+ String quote "")).

(** [range(start, stop, step)] for a positive [step], as CPython computes
    it: the number of items first, then item [i] is [start + i * step]. *)
Definition range_length (start stop step : Z) : nat :=
  if start <? stop then Z.to_nat ((stop - start - 1) / step + 1) else O.

Definition range (start stop step : Z) : list Z :=
  map (λ i : nat, start + Z.of_nat i * step)
      (seq 0 (range_length start stop step)).

(** [enumerate(l)], as a list. *)
Definition enumerate {A} (l : list A) : list (nat * A) :=
  combine (seq 0 (length l)) l.

(** [sys.maxsize] of 64-bit CPython: [len] raises [OverflowError] above
    it. *)
Definition maxsize : Z := 2 ^ 63 - 1.

End Py.

(** ** Exceptions, events and the environment *)

(** The exception classes the script can meet.  [IOError] is Python 3's
    [OSError]; [ConnectionError] is one of its subclasses. *)
Inductive exc : Type :=
| SystemExit (code : Z)
| IOError
| ConnectionError
| TypeError
| ValueError
| AttributeError
| UnboundLocalError
| IndexError
| KeyError
| ZeroDivisionError
| OverflowError
| MemoryError
| KeyboardInterrupt.

#[global] Instance exc_eq_dec : EqDecision exc.
Proof. solve_decision. Defined.

(** [isinstance(e, cls)] for the classes named in [except] clauses. *)
Definition isinstance (e cls : exc) : bool :=
  match cls, e with
  | IOError, (IOError | ConnectionError) => true
  | _, _ => bool_decide (e = cls)
  end.

(** What the process does that the outside can see, or that the outside
    answers. *)
Inductive event : Type :=
| EvPrint (text : string)
    (** [print(text)] *)
| EvProgress (iteration : nat) (len : nat)
    (** the [sys.stdout.write] of [progress_bar]: the bar for item
        [iteration] of [len], whose text is computed in floating point *)
| EvFlush
    (** [sys.stdout.flush()] *)
| EvSleep (seconds : Z)
    (** [sleep(seconds)] *)
| EvUrlopen (url : string) (reply : list byte + exc)
    (** [urlopen(url).read()] and what came back *)
| EvTimestamp (phrase : string) (reply : Z + exc)
    (** [int(Chronyk(phrase).timestamp())] and what came back *)
| EvCtime (phrase : string) (reply : string + exc)
    (** [Chronyk(phrase).ctime()] and what came back *).

(** The outside world answers each request from the history of events, so
    that a server may fail once and then recover, and the clock may move
    between two calls. *)
Record env : Type := {
  urlopen_read : list event → string → list byte + exc;
  chronyk_timestamp : list event → string → Z + exc;
  chronyk_ctime : list event → string → string + exc
}.

(** ** The monad of the script: a trace, and exceptions *)

Inductive result (A : Type) : Type :=
| Ok (a : A) (tr : list event)
| Raised (e : exc) (tr : list event).
Arguments Ok {A} a tr.
Arguments Raised {A} e tr.

Definition M (A : Type) : Type := list event → result A.

#[global] Instance M_ret : MRet M := λ A a tr, Ok a tr.
#[global] Instance M_bind : MBind M := λ A B f m tr,
  match m tr with
  | Ok a tr' => f a tr'
  | Raised e tr' => Raised e tr'
  end.

Definition raise {A} (e : exc) : M A := λ tr, Raised e tr.
Definition emit (ev : event) : M unit := λ tr, Ok () (tr ++ [ev]).


(** The trace a run ends with, and the exit status of the process: 0 when
    [main] returns, the code of an uncaught [SystemExit], and 1 (after a
    traceback) for any other uncaught exception. *)
Definition final_trace {A} (r : result A) : list event :=
  match r with Ok _ tr | Raised _ tr => tr end.

Definition exit_status {A} (r : result A) : Z :=
  match r with
  | Ok _ _ => 0
  | Raised (SystemExit code) _ => code
  | Raised _ _ => 1
  end.

Definition print (text : string) : M unit := emit (EvPrint text).
Definition sleep (seconds : Z) : M unit := emit (EvSleep seconds).
Definition sys_exit {A} (code : Z) : M A := raise (SystemExit code).

(** [len(l)] *)
Definition len {A} (l : list A) : M nat :=
  if Z.of_nat (length l) <=? Py.maxsize then mret (length l)
  else raise OverflowError.

(** [l[i]] *)
Definition getitem (l : list string) (i : nat) : M string :=
  match l !! i with
  | Some x => mret x
  | None => raise IndexError
  end.

(** [d[k]] *)
Definition dict_get (d : gmap string string) (k : string) : M string :=
  match d !! k with
  | Some x => mret x
  | None => raise KeyError
  end.

(** [try: body / except cls1: h1 / except cls2: h2 ...]: the first clause
    whose class the exception is an instance of handles it; an exception that
    a handler raises is not handled again. *)
Fixpoint find_handler {A} (e : exc) (handlers : list (exc * (exc → M A)))
  : option (M A) :=
  match handlers with
  | [] => None
  | (cls, h) :: rest =>
      if isinstance e cls then Some (h e) else find_handler e rest
  end.

Definition try_except {A} (body : M A) (handlers : list (exc * (exc → M A)))
  : M A :=
  λ tr, match body tr with
        | Ok a tr' => Ok a tr'
        | Raised e tr' =>
            match find_handler e handlers with
            | Some h => h tr'
            | None => Raised e tr'
            end
        end.

(** A local variable of a function body: not bound (never assigned, or
    deleted), or bound to a value. *)
Inductive local (A : Type) : Type :=
| Unbound
| Bound (a : A).
Arguments Unbound {A}.
Arguments Bound {A} a.

(** ** Module-level constants *)

Definition _frequency : Z := 3600.
Definition _min_timestamp : Z := 1378395540.
Definition _main_url : string := "https://beacon.nist.gov/rest/record/".

Definition newline : string := String Py.nl "".
Definition quoted (s : string) : string :=
  String Py.dquote s +:+ String Py.dquote "".

Definition _wrong_parameters_message : string :=
  newline +:+ "Wrong input parameters, please see help and try again.".
Definition _host_unreachable : string :=
  "Host " +:+ _main_url +:+ " is unreachable.".
Definition _host_unreachable_at_all : string :=
  newline +:+ "Host " +:+ _main_url +:+ " probably is down, exiting.".
Definition _value_not_found : string :=
  newline +:+ "Output value wasn't found in xml from " +:+ _main_url.
Definition _bad_time_received : string :=
  newline +:+ "Bad related time received, please see help and try again.".
Definition _from_less_than_to : string :=
  newline +:+ "Relative time in --from should predate relative time in --to".
Definition _time_less_than_min : string :=
  newline +:+ "Related time in --from or --to shouldn't predate beacon start at 09/05/2013 3:39 pm".
Definition _out_of_memory : string :=
  newline +:+ "Process is out of memory, please choose smaller time period and try again.".
Definition _help_message : string :=
  String.concat newline
    [ "";
      "usage: summarize-beacon [--help] [--from " +:+ quoted "relative time"
        +:+ "] [--to " +:+ quoted "relative time" +:+ "]";
      "";
      "Program is designed to get output values from";
      "NIST Randomness Beacon REST API 'https://beacon.nist.gov/rest'";
      "from relative time to relative time,";
      "parse it and output every hexadecimal character";
      "and number of it's occurrences from summarized beacon's output value.";
      "";
      "Without arguments program will output every hexadecimal character";
      "and number of it's occurrences in last Randomness Beacon output value.";
      "";
      "optional arguments:";
      " --help  show this help message and exit";
      " --from  " +:+ quoted "relative time";
      " --to    " +:+ quoted "relative time";
      "";
      " If option --from is used, option --to is required after it.";
      " " +:+ quoted "relative time" +:+ " string should look like:";
      " " +:+ quoted "2 year(s) 3 month(s) 2 day(s) 5 hour(s) 20 minute(s) ago"
        +:+ ",";
      " where at least one parameter is required";
      " (amount of years, months, days, hours or minutes)";
      " and " +:+ quoted "ago" +:+ " in the end of the string.";
      " " ].

Definition _result_header : string :=
  newline +:+ "Result (hexadecimal character,number of occurrences in output value):".

(** ** The regular expression of [parse_xml] *)

(** [re.search('<outputValue>(.*?)</outputValue>', text)]: the start
    positions are tried from left to right; at a position where
    [<outputValue>] is read, the lazy group grows one character at a time,
    never over a newline (which [.] does not match), until
    [</outputValue>] follows.  The result is group 1 of the match, [None]
    when there is no match. *)
Fixpoint lazy_group (rest : string) : option string :=
  if Py.startswith rest "</outputValue>" then Some EmptyString
  else match rest with
       | EmptyString => None
       | String c rest' =>
           if Ascii.eqb c Py.nl then None
           else String c <$> lazy_group rest'
       end.

Definition match_here (text : string) : option string :=
  if Py.startswith text "<outputValue>" then lazy_group (Py.drop 13 text)
  else None.

Fixpoint re_search (text : string) : option string :=
  match match_here text with
  | Some group1 => Some group1
  | None =>
      match text with
      | EmptyString => None
      | String _ text' => re_search text'
      end
  end.

(** ** The script *)

Section Script.

Context (E : env).

(** The three calls that leave the process.  Each asks the environment,
    records the exchange, and returns the answer or raises it. *)
Definition ask {A} (oracle : env → list event → string → A + exc)
    (record : string → A + exc → event) (request : string) : M A :=
  λ tr, let reply := oracle E tr request in
        match reply with
        | inl a => Ok a (tr ++ [record request reply])
        | inr e => Raised e (tr ++ [record request reply])
        end.

Definition urlopen (url : string) : M (list byte) :=
  ask urlopen_read EvUrlopen url.
Definition Chronyk_timestamp (phrase : string) : M Z :=
  ask chronyk_timestamp EvTimestamp phrase.
Definition Chronyk_ctime (phrase : string) : M string :=
  ask chronyk_ctime EvCtime phrase.

(** [get_xml]: the loop [for x in range(0, 3)] over the locals [xml] and
    [str_error].  [xml] is [None] or a string.  An [except ... as
    str_error] clause binds [str_error] to the exception and, as Python 3
    does for every [as] target, deletes the name when the clause ends. *)
Definition get_xml_try (url : string) (xml : option string)
    (str_error : local (option exc))
  : M (option string * local (option exc)) :=
  try_except
    (body ← urlopen url;
     let xml := Some (Py.str_bytes body) in
     let str_error := Bound None in
     mret (xml, str_error))
    [ (IOError, λ e,
         let str_error := Bound (Some e) in
         print _host_unreachable;;
         mret (xml, Unbound));
      (ConnectionError, λ e,
         let str_error := Bound (Some e) in
         print _host_unreachable;;
         mret (xml, Unbound)) ].

(** The truth value of [str_error] in [if str_error:]. *)
Definition truth (str_error : local (option exc)) : M bool :=
  match str_error with
  | Unbound => raise UnboundLocalError
  | Bound None => mret false
  | Bound (Some _) => mret true
  end.

Fixpoint get_xml_loop (url : string) (xs : list Z) (xml : option string)
    (str_error : local (option exc)) : M (option string) :=
  match xs with
  | [] =>
      print _host_unreachable_at_all;;
      sys_exit 1
  | x :: xs' =>
      '(xml, str_error) ← get_xml_try url xml str_error;
      failed ← truth str_error;
      if failed : bool then
        print ("Waiting 2 seconds for retry #" +:+ Py.str_int (x + 1));;
        sleep 2;;
        print "Retrying...";;
        get_xml_loop url xs' xml str_error
      else mret xml
  end.

Definition get_xml (url : string) : M (option string) :=
  let xml := None in
  get_xml_loop url (Py.range 0 3 1) xml Unbound.

(** [parse_xml]: [re.search] raises [TypeError] when handed [None]; when
    nothing matches it returns [None], and [.group(1)] on that raises
    [AttributeError]. *)
Definition parse_xml (xml : option string) : M string :=
  try_except
    (match xml with
     | None => raise TypeError
     | Some text =>
         match re_search text with
         | Some group1 => mret group1
         | None => raise AttributeError
         end
     end)
    [ (TypeError, λ _, print _value_not_found;; sys_exit 1);
      (ValueError, λ _, print _value_not_found;; sys_exit 1) ].

Definition validate_timestamps (from_timestamp to_timestamp : Z) : M bool :=
  if to_timestamp <? from_timestamp then
    print _from_less_than_to;;
    sys_exit 1
  else if (from_timestamp <? _min_timestamp)
          || (to_timestamp <? _min_timestamp) then
    print _time_less_than_min;;
    sys_exit 1
  else mret true.

(** [format_output_value]: the [for] loop runs over the characters of the
    sorted string as it was when the loop started, while [output_value] is
    rebound to a shorter string in each round. *)
Fixpoint format_output_loop (symbols : list ascii) (output_value : string)
  : M unit :=
  match symbols with
  | [] => mret ()
  | symbol :: rest =>
      let counter := Py.count output_value symbol in
      (if (0 <? counter)%nat then
         print (String symbol "," +:+ Py.str_int (Z.of_nat counter))
       else mret ());;
      let output_value := Py.remove output_value symbol in
      format_output_loop rest output_value
  end.

Definition format_output_value (output_value : string) : M unit :=
  let output_value := Py.join (Py.sorted output_value) in
  print _result_header;;
  format_output_loop (list_ascii_of_string output_value) output_value.

(** [convert_to_timestamp]: whatever Chronyk does with the phrase, the
    script sees an integer or an exception. *)
Definition convert_to_timestamp (relative_time : string) : M Z :=
  timestamp ←
    try_except (Chronyk_timestamp relative_time)
      [ (TypeError, λ _,
           print _bad_time_received;; print _help_message;; sys_exit 1);
        (ValueError, λ _,
           print _bad_time_received;; print _help_message;; sys_exit 1) ];
  let timestamp := timestamp - timestamp `mod` 60 in
  mret timestamp.

(** [progress_bar]: [one_percent] is [float(len(data_list)) / 100], which
    is [0.0] exactly when the list is empty, and then the division
    [(iteration + 1) / one_percent] raises [ZeroDivisionError]. *)
Definition progress_bar (iteration : nat) (data_list : list Z) : M unit :=
  n ← len data_list;
  (if (n =? 0)%nat then raise ZeroDivisionError else mret ());;
  emit (EvProgress iteration n);;
  emit EvFlush.

Fixpoint get_summary_loop (timestamps_list : list Z)
    (items : list (nat * Z)) (output_data : string) : M string :=
  match items with
  | [] => mret output_data
  | (index, timestamp) :: rest =>
      let timestamp_url := _main_url +:+ Py.str_int timestamp in
      xml_from_timestamp ← get_xml timestamp_url;
      record_from_timestamp ← parse_xml xml_from_timestamp;
      output_data ←
        try_except (mret (output_data +:+ record_from_timestamp))
          [ (MemoryError, λ _, print _out_of_memory;; sys_exit 1) ];
      progress_bar index timestamps_list;;
      get_summary_loop timestamps_list rest output_data
  end.

Definition get_summary_record (from_timestamp to_timestamp : Z) : M string :=
  let timestamps_list := Py.range from_timestamp to_timestamp _frequency in
  let output_data := "" in
  get_summary_loop timestamps_list (Py.enumerate timestamps_list) output_data.

Definition wrong_parameters {A} : M A :=
  print _wrong_parameters_message;;
  print _help_message;;
  sys_exit 2.

Definition main (args : list string) : M bool :=
  (if (length args =? 0)%nat then
     let last_url := _main_url +:+ "last/" in
     last_xml ← get_xml last_url;
     last_record ← parse_xml last_xml;
     format_output_value last_record
   else if (length args =? 1)%nat then
     arg0 ← getitem args 0;
     (if negb (String.eqb arg0 "--help") then wrong_parameters
      else mret ());;
     print _help_message;;
     sys_exit 0
   else if (length args =? 4)%nat then
     let options : gmap string string := ∅ in
     arg0 ← getitem args 0;
     (if negb (String.eqb arg0 "--from") then wrong_parameters
      else mret ());;
     arg1 ← getitem args 1;
     let options := <[arg0 := arg1]> options in
     arg2 ← getitem args 2;
     (if negb (String.eqb arg2 "--to") then wrong_parameters
      else mret ());;
     arg3 ← getitem args 3;
     let options := <[arg2 := arg3]> options in
     from_value ← dict_get options "--from";
     to_value ← dict_get options "--to";
     from_timestamp ← convert_to_timestamp from_value;
     to_timestamp ← convert_to_timestamp to_value;
     validate_timestamps from_timestamp to_timestamp;;
     from_ctime ← Chronyk_ctime from_value;
     to_ctime ← Chronyk_ctime to_value;
     print ("Requested records:" +:+ newline +:+ "From  " +:+ from_ctime
            +:+ newline +:+ "To    " +:+ to_ctime);;
     summary_record ←
       try_except (get_summary_record from_timestamp to_timestamp)
         [ (KeyboardInterrupt, λ _,
              print (newline +:+ "Program interrupted by user, exiting.");;
              sys_exit 1) ];
     try_except (format_output_value summary_record)
       [ (MemoryError, λ _, print _out_of_memory;; sys_exit 1) ]
   else wrong_parameters);;
  mret true.

End Script.

(** ** Sample environments and observations on traces *)

Definition bytes_of (s : string) : list byte :=
  map byte_of_ascii (list_ascii_of_string s).

(** A beacon that always answers with the same record, and a clock stuck at
    one instant. *)
Definition steady_env (body : string) (now : Z) : env := {|
  urlopen_read := λ _ _, inl (bytes_of body);
  chronyk_timestamp := λ _ _, inl now;
  chronyk_ctime := λ _ _, inl "Thu May 13 16:53:20 2014"
|}.

(** A beacon that cannot be reached, and a Chronyk that rejects every
    phrase. *)
Definition dead_env : env := {|
  urlopen_read := λ _ _, inr IOError;
  chronyk_timestamp := λ _ _, inr ValueError;
  chronyk_ctime := λ _ _, inr ValueError
|}.

(** The URLs requested in a trace, and the output values that the answers
    to those requests carry, both in order. *)
Definition requested_urls (tr : list event) : list string :=
  omap (λ ev, match ev with EvUrlopen url _ => Some url | _ => None end) tr.

Definition fetched_values (tr : list event) : list string :=
  omap (λ ev, match ev with
              | EvUrlopen _ (inl body) => re_search (Py.str_bytes body)
              | _ => None
              end) tr.

(** The lines written by [print], in order. *)
Definition printed (tr : list event) : list string :=
  omap (λ ev, match ev with EvPrint text => Some text | _ => None end) tr.

(** The URL probed for a timestamp, and the concatenation of a list of
    output values. *)
Definition probe_url (timestamp : Z) : string :=
  _main_url +:+ Py.str_int timestamp.

Definition concat_values (values : list string) : string :=
  foldr String.append "" values.

(** A progress event is sound when it shows an item of a non-empty list:
    its index is below the length it reports. *)
Definition progress_ok (ev : event) : Prop :=
  match ev with
  | EvProgress iteration n => (iteration < n)%nat
  | _ => True
  end.

(** ** The reference report of the design notes

    One pass over the string builds the mapping from character to count;
    the mapping is then emitted sorted by key, one ["<char>,<count>"] line
    per entry. *)
Module Reference.

Definition tally (s : string) : gmap ascii nat :=
  foldl (λ (m : gmap ascii nat) (c : ascii), <[c := S (default O (m !! c))]> m)
        ∅ (list_ascii_of_string s).

Definition key_le (x y : ascii * nat) : Prop := Py.char_le x.1 y.1.

#[global] Instance key_le_dec : RelDecision key_le.
Proof. intros x y. unfold key_le. apply _. Defined.

Definition sorted_items (m : gmap ascii nat) : list (ascii * nat) :=
  merge_sort key_le (map_to_list m).

Definition line (item : ascii * nat) : string :=
  String item.1 "," +:+ Py.str_int (Z.of_nat item.2).

Definition report (s : string) : list string :=
  line <$> sorted_items (tally s).

Definition run (s : string) : M unit :=
  print _result_header;;
  foldr (λ (text : string) (rest : M unit), print text;; rest)
        (mret ()) (report s).

End Reference.

(** Strictly ascending characters. *)
Definition char_lt (a b : ascii) : Prop := (N_of_ascii a < N_of_ascii b)%N.

(** The pairs that the loop of [format_output_value] prints, as a list. *)
Fixpoint counted (symbols : list ascii) (output_value : string)
  : list (ascii * nat) :=
  match symbols with
  | [] => []
  | symbol :: rest =>
      let counter := Py.count output_value symbol in
      (if (0 <? counter)%nat then [(symbol, counter)] else [])
        ++ counted rest (Py.remove output_value symbol)
  end.


(** The events of one completed round of the loop of [get_summary_record]:
    the request with its answer, the progress line, the flush. *)
Definition round_events (n : nat) (item : nat * Z) (body : list byte)
  : list event :=
  [EvUrlopen (probe_url item.2) (inl body); EvProgress item.1 n; EvFlush].

(** The two lines of [main] that are built in place. *)
Definition requested_records (from_ctime to_ctime : string) : string :=
  "Requested records:" +:+ newline +:+ "From  " +:+ from_ctime
  +:+ newline +:+ "To    " +:+ to_ctime.

Definition interrupted_message : string :=
  newline +:+ "Program interrupted by user, exiting.".



(** A beacon during whose request the user presses Ctrl-C, with a Chronyk
    that resolves [now] to one instant and any other phrase to two hours
    before. *)
Definition interrupted_env : env := {|
  urlopen_read := λ _ _, inr KeyboardInterrupt;
  chronyk_timestamp := λ _ phrase,
    inl (if String.eqb phrase "now" then 1400000015 else 1399992815);
  chronyk_ctime := λ _ _, inl "Thu May 13 16:53:20 2014"
|}.


(** * Properties *)

#[local] Arguments Py.str_bytes : simpl never.
#[local] Arguments re_search : simpl never.

(** Unfolding the monad. *)
Ltac run :=
  unfold mbind, M_bind, mret, M_ret, print, sleep, sys_exit, raise, emit,
    try_except in *; simpl.

Lemma app_snoc {A} (l : list A) (x : A) (k : list A) :
  (l ++ [x]) ++ k = l ++ x :: k.
Proof. by rewrite <- app_assoc. Qed.

(** ** Range validation *)

(** C5: [validate_timestamps] ends in the ordering failure (the message
    about [--from] predating [--to], then exit code 1) exactly when
    [from_timestamp > to_timestamp]; with equal or ordered bounds it does
    not. *)
Theorem validate_timestamps_ordering (from_timestamp to_timestamp : Z)
    (tr : list event) :
  validate_timestamps from_timestamp to_timestamp tr
    = Raised (SystemExit 1) (tr ++ [EvPrint _from_less_than_to])
  ↔ to_timestamp < from_timestamp.
Proof.
  unfold validate_timestamps.
  destruct (Z.ltb_spec to_timestamp from_timestamp) as [Hlt | Hge].
  - run. split; [intros _; exact Hlt | reflexivity].
  - split; [| lia].
    destruct (_ || _); run; intros Heq; [| discriminate Heq].
    injection Heq as Heq. apply app_inv_head in Heq. discriminate Heq.
Qed.

(** C6, as the code has it: with bounds in order, a bound before the start
    of the beacon ends [validate_timestamps] in the pre-epoch failure (its
    own message, exit code 1). *)
Theorem validate_timestamps_pre_epoch (from_timestamp to_timestamp : Z)
    (tr : list event) :
  from_timestamp <= to_timestamp →
  from_timestamp < _min_timestamp ∨ to_timestamp < _min_timestamp →
  validate_timestamps from_timestamp to_timestamp tr
    = Raised (SystemExit 1) (tr ++ [EvPrint _time_less_than_min]).
Proof.
  intros Hle Hmin. unfold validate_timestamps.
  destruct (Z.ltb_spec to_timestamp from_timestamp); [lia |].
  destruct (Z.ltb_spec from_timestamp _min_timestamp);
    destruct (Z.ltb_spec to_timestamp _min_timestamp);
    simpl; try reflexivity.
  lia.
Qed.

Lemma validate_timestamps_pre_epoch_witness :
  validate_timestamps 0 1378395540 []
    = Raised (SystemExit 1) ([] ++ [EvPrint _time_less_than_min]).
Proof.
  apply (validate_timestamps_pre_epoch 0 1378395540 []).
  - lia.
  - left. unfold _min_timestamp. lia.
Defined.

(** C6, as stated, fails: with [from_timestamp = 100] and
    [to_timestamp = 50] both bounds predate the beacon, yet the run ends in
    the ordering failure and the pre-epoch message is never printed. *)
Lemma validate_timestamps_pre_epoch_masked :
  100 < _min_timestamp ∧ 50 < _min_timestamp ∧
  validate_timestamps 100 50 []
    = Raised (SystemExit 1) [EvPrint _from_less_than_to] ∧
  validate_timestamps 100 50 []
    ≠ Raised (SystemExit 1) [EvPrint _time_less_than_min].
Proof.
  repeat split; try (unfold _min_timestamp; lia).
  intros Heq. vm_compute in Heq. discriminate Heq.
Qed.

(** ** The time parser *)

(** C7: whatever integer Chronyk makes of the phrase, [convert_to_timestamp]
    returns it floored to the minute, a multiple of 60; when Chronyk rejects
    the phrase with a [ValueError] or a [TypeError], the bad-time message and
    the usage text are printed and the process exits with code 1. *)
Theorem convert_to_timestamp_minute (E : env) (relative_time : string)
    (tr : list event) :
  match chronyk_timestamp E tr relative_time with
  | inl t =>
      ∃ timestamp : Z,
        convert_to_timestamp E relative_time tr
          = Ok timestamp (tr ++ [EvTimestamp relative_time (inl t)]) ∧
        timestamp `mod` 60 = 0 ∧
        timestamp <= t < timestamp + 60
  | inr e =>
      e = ValueError ∨ e = TypeError →
      convert_to_timestamp E relative_time tr
        = Raised (SystemExit 1)
            (tr ++ [EvTimestamp relative_time (inr e);
                    EvPrint _bad_time_received; EvPrint _help_message]) ∧
      exit_status (convert_to_timestamp E relative_time tr) ≠ 0
  end.
Proof.
  unfold convert_to_timestamp, Chronyk_timestamp, ask. run.
  destruct (chronyk_timestamp E tr relative_time) as [t | e] eqn:Hreply.
  - exists (t - t `mod` 60). split; [reflexivity |].
    pose proof (Z.mod_pos_bound t 60 ltac:(lia)) as Hbound.
    split; [| lia].
    rewrite Zminus_mod, Zmod_mod, Z.sub_diag. reflexivity.
  - intros [-> | ->]; simpl; rewrite !app_snoc; split; (reflexivity || discriminate).
Qed.

Lemma convert_to_timestamp_minute_witness :
  convert_to_timestamp dead_env "soon" []
    = Raised (SystemExit 1)
        [EvTimestamp "soon" (inr ValueError);
         EvPrint _bad_time_received; EvPrint _help_message] ∧
  convert_to_timestamp (steady_env "" 1400000015) "1 hour ago" []
    = Ok 1399999980 [EvTimestamp "1 hour ago" (inl 1400000015)].
Proof.
  split.
  - apply (convert_to_timestamp_minute dead_env "soon" []). left. reflexivity.
  - destruct (convert_to_timestamp_minute (steady_env "" 1400000015)
                "1 hour ago" []) as (timestamp & Hrun & _ & _).
    rewrite Hrun. vm_compute in Hrun. injection Hrun as <-. reflexivity.
Defined.

(** ** The command line *)

(** C8: an argument list that is not empty, is not [--help] alone and is
    not [--from p --to q] makes [main] print the wrong-parameters message
    and the usage text and exit with code 2; [--help] alone prints the usage
    text and exits with code 0. *)
Theorem main_wrong_parameters (E : env) (args : list string)
    (tr : list event) :
  (args ≠ [] →
   args ≠ ["--help"] →
   (∀ p q : string, args ≠ ["--from"; p; "--to"; q]) →
   main E args tr
     = Raised (SystemExit 2)
         (tr ++ [EvPrint _wrong_parameters_message; EvPrint _help_message])) ∧
  main E ["--help"] tr = Raised (SystemExit 0) (tr ++ [EvPrint _help_message]).
Proof.
  split; [| reflexivity].
  intros Hne Hhelp Hrange. unfold main, wrong_parameters, getitem.
  destruct args as [| a0 [| a1 [| a2 [| a3 [| a4 rest]]]]];
    try congruence; try (run; rewrite ?app_snoc; reflexivity).
  - run. destruct (String.eqb_spec a0 "--help") as [-> | _]; [congruence |].
    simpl. rewrite !app_snoc. reflexivity.
  - run. destruct (String.eqb_spec a0 "--from") as [-> | _];
      [| simpl; rewrite !app_snoc; reflexivity].
    simpl. destruct (String.eqb_spec a2 "--to") as [-> | _];
      [| simpl; rewrite !app_snoc; reflexivity].
    exfalso. exact (Hrange a1 a3 eq_refl).
Qed.

Lemma main_wrong_parameters_witness :
  main dead_env ["--from"; "1 hour ago"; "now"] []
    = Raised (SystemExit 2)
        [EvPrint _wrong_parameters_message; EvPrint _help_message] ∧
  main dead_env ["--form"; "1 hour ago"; "--to"; "now"] []
    = Raised (SystemExit 2)
        [EvPrint _wrong_parameters_message; EvPrint _help_message].
Proof.
  split.
  - apply (proj1 (main_wrong_parameters dead_env
                    ["--from"; "1 hour ago"; "now"] []));
      intros; discriminate.
  - apply (proj1 (main_wrong_parameters dead_env
                    ["--form"; "1 hour ago"; "--to"; "now"] []));
      intros; discriminate.
Defined.

(** ** The beacon client *)

(** One round of the [try] statement of [get_xml], by the answer of the
    server. *)
Lemma get_xml_try_ok (E : env) (url : string) (xml : option string)
    (str_error : local (option exc)) (tr : list event) (body : list byte) :
  urlopen_read E tr url = inl body →
  get_xml_try E url xml str_error tr
    = Ok (Some (Py.str_bytes body), Bound None)
         (tr ++ [EvUrlopen url (inl body)]).
Proof.
  intros Hreply.
  unfold get_xml_try, urlopen, ask, try_except, mbind, M_bind, mret, M_ret.
  by rewrite Hreply.
Qed.

Lemma get_xml_try_failed (E : env) (url : string) (xml : option string)
    (str_error : local (option exc)) (tr : list event) (e : exc) :
  urlopen_read E tr url = inr e →
  get_xml_try E url xml str_error tr
    = if isinstance e IOError
      then Ok (xml, Unbound)
              (tr ++ [EvUrlopen url (inr e); EvPrint _host_unreachable])
      else Raised e (tr ++ [EvUrlopen url (inr e)]).
Proof.
  intros Hreply.
  unfold get_xml_try, urlopen, ask, try_except, mbind, M_bind, mret, M_ret.
  rewrite Hreply. cbn [find_handler].
  destruct (isinstance e IOError) eqn:Hcls.
  - unfold print, emit. by rewrite app_snoc.
  - destruct (isinstance e ConnectionError) eqn:Hconn; [| reflexivity].
    destruct e; discriminate.
Qed.

Lemma get_xml_unfold (E : env) (url : string) (tr : list event) :
  get_xml E url tr
    = match get_xml_try E url None Unbound tr with
      | Ok (xml, str_error) tr' =>
          match truth str_error tr' with
          | Ok true tr'' =>
              (print ("Waiting 2 seconds for retry #" +:+ Py.str_int 1);;
               sleep 2;;
               print "Retrying...";;
               get_xml_loop E url [1; 2] xml str_error) tr''
          | Ok false tr'' => Ok xml tr''
          | Raised e tr'' => Raised e tr''
          end
      | Raised e tr' => Raised e tr'
      end.
Proof.
  unfold get_xml.
  change (Py.range 0 3 1) with [0; 1; 2].
  cbn [get_xml_loop]. unfold mbind at 1, M_bind at 1.
  destruct (get_xml_try E url None Unbound tr) as [[xml str_error] tr' | e tr'];
    [| reflexivity].
  unfold mbind at 1, M_bind at 1.
  destruct (truth str_error tr') as [[|] tr'' | e tr'']; reflexivity.
Qed.

(** [get_xml], by the answer of the server to its first request. *)
Lemma get_xml_run (E : env) (url : string) (tr : list event) :
  get_xml E url tr
    = match urlopen_read E tr url with
      | inl body =>
          Ok (Some (Py.str_bytes body)) (tr ++ [EvUrlopen url (inl body)])
      | inr e =>
          if isinstance e IOError
          then Raised UnboundLocalError
                 (tr ++ [EvUrlopen url (inr e); EvPrint _host_unreachable])
          else Raised e (tr ++ [EvUrlopen url (inr e)])
      end.
Proof.
  rewrite get_xml_unfold.
  destruct (urlopen_read E tr url) as [body | e] eqn:Hreply.
  - by rewrite (get_xml_try_ok _ _ _ _ _ _ Hreply).
  - rewrite (get_xml_try_failed _ _ _ _ _ _ Hreply).
    by destruct (isinstance e IOError).
Qed.

(** C3, what the code does: on a network-level failure of the first request
    [get_xml] prints that the host is unreachable and then stops on an
    [UnboundLocalError], because [str_error] was deleted at the end of the
    [except] clause.  There is one request, no sleep, no retry and no final
    diagnosis; the process dies with status 1 from the traceback. *)
Theorem get_xml_network_failure (E : env) (url : string) (tr : list event)
    (e : exc) :
  urlopen_read E tr url = inr e →
  isinstance e IOError = true →
  get_xml E url tr
    = Raised UnboundLocalError
        (tr ++ [EvUrlopen url (inr e); EvPrint _host_unreachable]).
Proof.
  intros Hreply Hcls. by rewrite get_xml_run, Hreply, Hcls.
Qed.

Lemma get_xml_network_failure_witness :
  get_xml dead_env (_main_url +:+ "last/") []
    = Raised UnboundLocalError
        [EvUrlopen (_main_url +:+ "last/") (inr IOError);
         EvPrint _host_unreachable].
Proof.
  apply (get_xml_network_failure dead_env (_main_url +:+ "last/") [] IOError);
    reflexivity.
Defined.

(** ** The record extractor *)

Lemma parse_xml_found (text group1 : string) (tr : list event) :
  re_search text = Some group1 → parse_xml (Some text) tr = Ok group1 tr.
Proof. intros Hsearch. unfold parse_xml. run. by rewrite Hsearch. Qed.

Lemma parse_xml_none (tr : list event) :
  parse_xml None tr = Raised (SystemExit 1) (tr ++ [EvPrint _value_not_found]).
Proof. reflexivity. Qed.

(** C4, what the code does: the inner text of the element is returned when
    the pattern matches, but on a text without the element [parse_xml] stops
    on an [AttributeError] ([.group] of [None]) that neither [except] clause
    handles: nothing is printed, and the process dies with status 1 from the
    traceback rather than from [sys.exit]. *)
Theorem parse_xml_without_element (text : string) (tr : list event) :
  parse_xml (Some "<outputValue>DEADBEEF</outputValue>") tr
    = Ok "DEADBEEF" tr ∧
  (re_search text = None →
   parse_xml (Some text) tr = Raised AttributeError tr).
Proof.
  split; [reflexivity |].
  intros Hsearch. unfold parse_xml. run. by rewrite Hsearch.
Qed.

Lemma parse_xml_without_element_witness :
  parse_xml (Some "<record><version>Version 1.0</version></record>") []
    = Raised AttributeError [].
Proof.
  apply (parse_xml_without_element
           "<record><version>Version 1.0</version></record>" []).
  reflexivity.
Defined.

(** ** The range aggregator *)

Lemma progress_bar_run (iteration : nat) (data_list : list Z)
    (tr : list event) :
  progress_bar iteration data_list tr
    = if Z.of_nat (length data_list) <=? Py.maxsize then
        if (length data_list =? 0)%nat then Raised ZeroDivisionError tr
        else Ok () (tr ++ [EvProgress iteration (length data_list); EvFlush])
      else Raised OverflowError tr.
Proof.
  unfold progress_bar, len.
  destruct (Z.of_nat (length data_list) <=? Py.maxsize); [| reflexivity].
  unfold mbind, M_bind, mret, M_ret, emit, raise.
  destruct (length data_list =? 0)%nat; [reflexivity |].
  by rewrite app_snoc.
Qed.

(** One round of the loop of [get_summary_record]. *)
Lemma get_summary_loop_step (E : env) (timestamps_list : list Z)
    (index : nat) (timestamp : Z) (rest : list (nat * Z))
    (output_data : string) (tr : list event) :
  let url := _main_url +:+ Py.str_int timestamp in
  get_summary_loop E timestamps_list ((index, timestamp) :: rest)
    output_data tr
    = match urlopen_read E tr url with
      | inl body =>
          let tr1 := tr ++ [EvUrlopen url (inl body)] in
          match re_search (Py.str_bytes body) with
          | Some value =>
              match progress_bar index timestamps_list tr1 with
              | Ok _ tr2 =>
                  get_summary_loop E timestamps_list rest
                    (output_data +:+ value) tr2
              | Raised e tr2 => Raised e tr2
              end
          | None => Raised AttributeError tr1
          end
      | inr e =>
          if isinstance e IOError
          then Raised UnboundLocalError
                 (tr ++ [EvUrlopen url (inr e); EvPrint _host_unreachable])
          else Raised e (tr ++ [EvUrlopen url (inr e)])
      end.
Proof.
  intros url. cbn [get_summary_loop]. fold url.
  unfold mbind at 1, M_bind at 1. rewrite get_xml_run.
  destruct (urlopen_read E tr url) as [body | e].
  - cbn zeta. unfold mbind at 1, M_bind at 1.
    unfold parse_xml, try_except.
    destruct (re_search (Py.str_bytes body)) as [value |]; [| reflexivity].
    unfold mret at 1, M_ret at 1.
    unfold mbind at 1, M_bind at 1. unfold mret at 1, M_ret at 1.
    unfold mbind at 1, M_bind at 1.
    destruct (progress_bar index timestamps_list _); reflexivity.
  - destruct (isinstance e IOError); reflexivity.
Qed.

Lemma string_app_nil_r (s : string) : s +:+ "" = s.
Proof.
  induction s as [| c s IH]; [reflexivity |].
  change (String c (s +:+ "") = String c s). by rewrite IH.
Qed.

Lemma string_app_assoc (s1 s2 s3 : string) :
  (s1 +:+ s2) +:+ s3 = s1 +:+ (s2 +:+ s3).
Proof.
  induction s1 as [| c s1 IH]; [reflexivity |].
  change (String c ((s1 +:+ s2) +:+ s3) = String c (s1 +:+ (s2 +:+ s3))).
  by rewrite IH.
Qed.

(** What [range] holds: the arithmetic progression from [start], below
    [stop]. *)
Lemma range_length_spec (start stop step : Z) (i : nat) :
  0 < step →
  (i < Py.range_length start stop step)%nat ↔ start + Z.of_nat i * step < stop.
Proof.
  intros Hstep. unfold Py.range_length.
  destruct (Z.ltb_spec start stop) as [Hlt | Hge]; [| nia].
  pose proof (Z.div_mod (stop - start - 1) step ltac:(lia)) as Hdiv.
  pose proof (Z.mod_pos_bound (stop - start - 1) step Hstep) as Hmod.
  assert (0 <= (stop - start - 1) / step) by (apply Z.div_pos; lia).
  split; intros Hi; [| apply Nat2Z.inj_lt; rewrite Z2Nat.id by lia]; nia.
Qed.

Lemma elem_of_range (start stop step t : Z) :
  0 < step →
  t ∈ Py.range start stop step
  ↔ ∃ k : Z, 0 <= k ∧ t = start + k * step ∧ t < stop.
Proof.
  intros Hstep. unfold Py.range. rewrite list_elem_of_fmap. split.
  - intros (i & -> & Hi). apply elem_of_seq in Hi.
    exists (Z.of_nat i). split; [lia |]. split; [reflexivity |].
    apply range_length_spec; [done | lia].
  - intros (k & Hk & -> & Hlt). exists (Z.to_nat k).
    rewrite Z2Nat.id by done. split; [reflexivity |].
    apply elem_of_seq. split; [lia |]. simpl.
    apply range_length_spec; [done |]. by rewrite Z2Nat.id.
Qed.

Lemma range_increasing_from (start step : Z) (a n : nat) :
  0 < step →
  StronglySorted Z.lt
    (map (λ i : nat, start + Z.of_nat i * step) (seq a n)).
Proof.
  intros Hstep. revert a. induction n as [| n IH]; intros a; cbn.
  - constructor.
  - constructor; [apply IH |].
    apply Forall_forall. intros t Ht.
    apply list_elem_of_fmap in Ht as (i & -> & Hi).
    apply elem_of_seq in Hi. nia.
Qed.

Lemma range_increasing (start stop step : Z) :
  0 < step → StronglySorted Z.lt (Py.range start stop step).
Proof. intros. by apply range_increasing_from. Qed.

Lemma range_two_hours (from_timestamp : Z) :
  Py.range from_timestamp (from_timestamp + 7200) _frequency
    = [from_timestamp; from_timestamp + 3600].
Proof.
  unfold Py.range, Py.range_length, _frequency.
  destruct (Z.ltb_spec from_timestamp (from_timestamp + 7200)); [| lia].
  replace (from_timestamp + 7200 - from_timestamp - 1) with 7199 by lia.
  change (Z.to_nat (7199 `div` 3600 + 1)) with 2%nat. cbn. repeat f_equal; lia.
Qed.

Lemma range_empty (start stop step : Z) :
  stop <= start → Py.range start stop step = [].
Proof.
  intros Hle. unfold Py.range, Py.range_length.
  by destruct (Z.ltb_spec start stop); [lia |].
Qed.

Lemma enumerate_index_bound {A} (l : list A) :
  Forall (λ item : nat * A, (item.1 < length l)%nat) (Py.enumerate l).
Proof.
  unfold Py.enumerate. apply Forall_forall. intros [i x] Hin.
  apply elem_of_zip_l in Hin. apply elem_of_seq in Hin. simpl. lia.
Qed.

Lemma enumerate_snd {A} (l : list A) : (Py.enumerate l).*2 = l.
Proof. unfold Py.enumerate. apply snd_zip. by rewrite length_seq. Qed.

Lemma requested_urls_cons (ev : event) (tr : list event) :
  requested_urls (ev :: tr)
    = match ev with
      | EvUrlopen url _ => url :: requested_urls tr
      | _ => requested_urls tr
      end.
Proof. by destruct ev. Qed.

Lemma fetched_values_cons (ev : event) (tr : list event) :
  fetched_values (ev :: tr)
    = match ev with
      | EvUrlopen _ (inl body) =>
          match re_search (Py.str_bytes body) with
          | Some value => value :: fetched_values tr
          | None => fetched_values tr
          end
      | _ => fetched_values tr
      end.
Proof.
  by destruct ev as [| | | | url [body | e] | |].
Qed.

(** The loop, round by round: a run that returns has requested the URL of
    every item, in order, and returns the values it extracted appended to
    the running summary; a run that stops early has requested the URLs of a
    prefix of the items. *)
Lemma get_summary_loop_probes (E : env) (timestamps_list : list Z)
    (items : list (nat * Z)) (output_data : string) (tr : list event) :
  match get_summary_loop E timestamps_list items output_data tr with
  | Ok summary tr' =>
      ∃ new : list event,
        tr' = tr ++ new ∧
        requested_urls new = probe_url <$> items.*2 ∧
        length (fetched_values new) = length items ∧
        summary = output_data +:+ concat_values (fetched_values new)
  | Raised _ tr' =>
      ∃ new : list event,
        tr' = tr ++ new ∧
        requested_urls new `prefix_of` (probe_url <$> items.*2)
  end.
Proof.
  revert output_data tr.
  induction items as [| [index timestamp] rest IH]; intros output_data tr.
  - cbn. exists []. by rewrite app_nil_r, string_app_nil_r.
  - rewrite get_summary_loop_step. cbn zeta.
    fold (probe_url timestamp).
    destruct (urlopen_read E tr (probe_url timestamp)) as [body | e].
    + destruct (re_search (Py.str_bytes body)) as [value |] eqn:Hvalue.
      * rewrite progress_bar_run.
        destruct (_ <=? _); [destruct (_ =? _)%nat |].
        -- eexists [_]. split; [reflexivity |]. cbn. by apply prefix_cons, prefix_nil.
        -- specialize (IH (output_data +:+ value)
                         ((tr ++ [EvUrlopen (probe_url timestamp) (inl body)])
                            ++ [EvProgress index (length timestamps_list);
                                EvFlush])).
           destruct (get_summary_loop E timestamps_list rest _ _)
             as [summary tr' | e tr'].
           ++ destruct IH as (new & -> & Hurls & Hlen & ->).
              exists (EvUrlopen (probe_url timestamp) (inl body)
                        :: EvProgress index (length timestamps_list)
                        :: EvFlush :: new).
              split; [by rewrite <- !app_assoc |].
              rewrite !requested_urls_cons, !fetched_values_cons, Hvalue.
              cbn. split; [by rewrite Hurls |].
              split; [by rewrite Hlen |].
              by rewrite string_app_assoc.
           ++ destruct IH as (new & -> & Hurls).
              exists (EvUrlopen (probe_url timestamp) (inl body)
                        :: EvProgress index (length timestamps_list)
                        :: EvFlush :: new).
              split; [by rewrite <- !app_assoc |].
              rewrite !requested_urls_cons. by apply prefix_cons.
        -- eexists [_]. split; [reflexivity |]. cbn. by apply prefix_cons, prefix_nil.
      * eexists [_]. split; [reflexivity |]. cbn. by apply prefix_cons, prefix_nil.
    + destruct (isinstance e IOError).
      * eexists [_; _]. split; [reflexivity |]. cbn.
        by apply prefix_cons, prefix_nil.
      * eexists [_]. split; [reflexivity |]. cbn. by apply prefix_cons, prefix_nil.
Qed.

(** C2: the timestamps that [get_summary_record] walks through are exactly
    [from_timestamp + 3600 * k], [k = 0, 1, ...], below [to_timestamp], in
    increasing order, two of them when the bounds are 7200 apart.  A run
    that returns has requested exactly their URLs, in that order, and
    returns the concatenation of the output values found in the answers;
    a run that a failed fetch or extraction cuts short has requested a
    prefix of them. *)
Theorem get_summary_record_probes (E : env) (from_timestamp to_timestamp : Z)
    (tr : list event) :
  from_timestamp <= to_timestamp →
  let timestamps := Py.range from_timestamp to_timestamp _frequency in
  (∀ t : Z,
     t ∈ timestamps
     ↔ ∃ k : Z, 0 <= k ∧ t = from_timestamp + k * 3600 ∧ t < to_timestamp) ∧
  StronglySorted Z.lt timestamps ∧
  Py.range from_timestamp (from_timestamp + 7200) _frequency
    = [from_timestamp; from_timestamp + 3600] ∧
  match get_summary_record E from_timestamp to_timestamp tr with
  | Ok summary tr' =>
      ∃ new : list event,
        tr' = tr ++ new ∧
        requested_urls new = probe_url <$> timestamps ∧
        length (fetched_values new) = length timestamps ∧
        summary = concat_values (fetched_values new)
  | Raised _ tr' =>
      ∃ new : list event,
        tr' = tr ++ new ∧
        requested_urls new `prefix_of` (probe_url <$> timestamps)
  end.
Proof.
  intros _ timestamps.
  split; [intros t; by apply elem_of_range |].
  split; [by apply range_increasing |].
  split; [apply range_two_hours |].
  unfold get_summary_record. fold timestamps.
  pose proof (get_summary_loop_probes E timestamps (Py.enumerate timestamps)
                "" tr) as Hloop.
  rewrite enumerate_snd in Hloop.
  destruct (get_summary_loop E timestamps (Py.enumerate timestamps) "" tr)
    as [summary tr' | e tr']; [| exact Hloop].
  destruct Hloop as (new & -> & Hurls & Hlen & ->).
  exists new. repeat split; try done.
  rewrite Hlen. unfold Py.enumerate.
  rewrite length_combine, length_seq. lia.
Qed.

(** A run over two hours, event by event. *)
Example get_summary_record_two_hours :
  get_summary_record
    (steady_env "<record><outputValue>17C4</outputValue></record>" 0)
    1400000000 1400007200 []
  = Ok "17C417C4"
      [EvUrlopen "https://beacon.nist.gov/rest/record/1400000000"
         (inl (bytes_of "<record><outputValue>17C4</outputValue></record>"));
       EvProgress 0 2; EvFlush;
       EvUrlopen "https://beacon.nist.gov/rest/record/1400003600"
         (inl (bytes_of "<record><outputValue>17C4</outputValue></record>"));
       EvProgress 1 2; EvFlush].
Proof. vm_compute. reflexivity. Qed.

Lemma get_summary_record_probes_witness :
  let E := steady_env "<record><outputValue>17C4</outputValue></record>" 0 in
  ∃ new : list event,
    get_summary_record E 1400000000 1400007200 [] = Ok "17C417C4" new ∧
    requested_urls new
      = ["https://beacon.nist.gov/rest/record/1400000000";
         "https://beacon.nist.gov/rest/record/1400003600"].
Proof.
  intros E.
  destruct (get_summary_record_probes E 1400000000 1400007200 []
              ltac:(lia)) as (_ & _ & _ & Hrun).
  unfold E in *. rewrite get_summary_record_two_hours in Hrun |- *.
  destruct Hrun as (new & Htrace & Hurls & _ & _).
  exists new. split; [by rewrite Htrace | by rewrite Hurls].
Defined.

(** C9: in a run of [get_summary_record] every progress line is drawn for a
    non-empty list: [progress_bar] divides by zero on the empty list only,
    every progress event of the run reports a length above the index it
    shows, and, unless the server call itself raises one, the run never
    ends in a [ZeroDivisionError]. *)
Theorem progress_bar_never_divides_by_zero (E : env)
    (from_timestamp to_timestamp : Z) (tr : list event) :
  (∀ (tr0 : list event) (url : string),
     urlopen_read E tr0 url ≠ inr ZeroDivisionError) →
  (∀ (iteration : nat) (data_list : list Z) (tr0 : list event),
     progress_bar iteration data_list tr0 = Raised ZeroDivisionError tr0
     ↔ data_list = []) ∧
  (∀ tr' : list event,
     get_summary_record E from_timestamp to_timestamp tr
       ≠ Raised ZeroDivisionError tr') ∧
  ∃ new : list event,
    final_trace (get_summary_record E from_timestamp to_timestamp tr)
      = tr ++ new ∧
    Forall progress_ok new.
Proof.
  intros Hserver. split.
  { intros iteration data_list tr0. rewrite progress_bar_run.
    destruct data_list as [| t data_list]; [done |].
    destruct (_ <=? _); cbn; split; intros Habs; discriminate Habs. }
  unfold get_summary_record.
  generalize (enumerate_index_bound
                (Py.range from_timestamp to_timestamp _frequency)).
  generalize (Py.enumerate (Py.range from_timestamp to_timestamp _frequency)).
  generalize (Py.range from_timestamp to_timestamp _frequency).
  intros timestamps_list items. generalize "". revert tr.
  induction items as [| [index timestamp] rest IH];
    intros tr output_data Hbound.
  - cbn. split; [discriminate |]. exists []. by rewrite app_nil_r.
  - apply Forall_cons in Hbound as [Hindex Hrest]. cbn in Hindex.
    rewrite get_summary_loop_step. cbn zeta.
    destruct (urlopen_read E tr _) as [body | e] eqn:Hreply.
    + destruct (re_search (Py.str_bytes body)) as [value |].
      * rewrite progress_bar_run.
        destruct (_ <=? _);
          [destruct (Nat.eqb_spec (length timestamps_list) 0);
             [lia |] |].
        -- destruct (IH ((tr ++ [EvUrlopen (_main_url +:+ Py.str_int timestamp)
                                   (inl body)])
                           ++ [EvProgress index (length timestamps_list);
                               EvFlush])
                        (output_data +:+ value) Hrest)
             as (Hnever & new & Htrace & Hok).
           split; [exact Hnever |].
           eexists (_ :: _ :: _ :: new).
           split; [rewrite Htrace; by rewrite <- !app_assoc |].
           repeat constructor; done.
        -- split; [discriminate |]. eexists [_]. split; [reflexivity |].
           repeat constructor.
      * split; [discriminate |]. eexists [_]. split; [reflexivity |].
        repeat constructor.
    + destruct (isinstance e IOError).
      * split; [discriminate |]. eexists [_; _]. split; [reflexivity |].
        repeat constructor.
      * split.
        -- intros tr' Habs. injection Habs as -> _.
           by apply (Hserver tr (_main_url +:+ Py.str_int timestamp)).
        -- eexists [_]. split; [reflexivity |]. repeat constructor.
Qed.

Lemma progress_bar_never_divides_by_zero_witness :
  ∃ new : list event,
    final_trace
      (get_summary_record
         (steady_env "<record><outputValue>17C4</outputValue></record>" 0)
         1400000000 1400007200 [])
      = [] ++ new ∧
    Forall progress_ok new.
Proof.
  apply (progress_bar_never_divides_by_zero
           (steady_env "<record><outputValue>17C4</outputValue></record>" 0)
           1400000000 1400007200 []).
  intros tr0 url. discriminate.
Defined.

(** ** Equal bounds *)

Lemma convert_to_timestamp_ok (E : env) (relative_time : string)
    (tr : list event) (t : Z) :
  chronyk_timestamp E tr relative_time = inl t →
  convert_to_timestamp E relative_time tr
    = Ok (t - t `mod` 60) (tr ++ [EvTimestamp relative_time (inl t)]).
Proof.
  intros Hreply.
  unfold convert_to_timestamp, Chronyk_timestamp, ask, try_except,
    mbind, M_bind, mret, M_ret.
  by rewrite Hreply.
Qed.

Lemma Chronyk_ctime_ok (E : env) (phrase : string) (tr : list event)
    (text : string) :
  chronyk_ctime E tr phrase = inl text →
  Chronyk_ctime E phrase tr = Ok text (tr ++ [EvCtime phrase (inl text)]).
Proof. intros Hreply. unfold Chronyk_ctime, ask. by rewrite Hreply. Qed.

Lemma validate_timestamps_ok (from_timestamp to_timestamp : Z)
    (tr : list event) :
  _min_timestamp <= from_timestamp <= to_timestamp →
  validate_timestamps from_timestamp to_timestamp tr = Ok true tr.
Proof.
  intros Hbounds. unfold validate_timestamps.
  destruct (Z.ltb_spec to_timestamp from_timestamp); [lia |].
  destruct (Z.ltb_spec from_timestamp _min_timestamp); [lia |].
  destruct (Z.ltb_spec to_timestamp _min_timestamp); [lia |].
  reflexivity.
Qed.

Lemma get_summary_record_empty (E : env) (from_timestamp to_timestamp : Z)
    (tr : list event) :
  to_timestamp <= from_timestamp →
  get_summary_record E from_timestamp to_timestamp tr = Ok "" tr.
Proof.
  intros Hle. unfold get_summary_record. by rewrite range_empty.
Qed.

Lemma format_output_value_empty (tr : list event) :
  format_output_value "" tr = Ok () (tr ++ [EvPrint _result_header]).
Proof. reflexivity. Qed.

(** C10, as the code has it: with equal bounds that do not predate the
    beacon, validation succeeds, [get_summary_record] requests nothing and
    returns the empty string, and the report is the header line alone; so
    [main], called with two phrases that resolve to that same minute,
    returns normally having printed the resolved times and the header, and
    no [char,count] line. *)
Theorem equal_bounds_empty_report (E : env) (t : Z) (tr : list event) :
  _min_timestamp <= t →
  validate_timestamps t t tr = Ok true tr ∧
  get_summary_record E t t tr = Ok "" tr ∧
  format_output_value "" tr = Ok () (tr ++ [EvPrint _result_header]) ∧
  ∀ (from_value to_value : string) (t1 t2 : Z) (c1 c2 : string),
    let tr1 := tr ++ [EvTimestamp from_value (inl t1)] in
    let tr2 := tr1 ++ [EvTimestamp to_value (inl t2)] in
    let tr3 := tr2 ++ [EvCtime from_value (inl c1)] in
    chronyk_timestamp E tr from_value = inl t1 →
    chronyk_timestamp E tr1 to_value = inl t2 →
    t1 - t1 `mod` 60 = t →
    t2 - t2 `mod` 60 = t →
    chronyk_ctime E tr2 from_value = inl c1 →
    chronyk_ctime E tr3 to_value = inl c2 →
    main E ["--from"; from_value; "--to"; to_value] tr
      = Ok true
          (tr ++ [EvTimestamp from_value (inl t1);
                  EvTimestamp to_value (inl t2);
                  EvCtime from_value (inl c1);
                  EvCtime to_value (inl c2);
                  EvPrint ("Requested records:" +:+ newline +:+ "From  "
                           +:+ c1 +:+ newline +:+ "To    " +:+ c2);
                  EvPrint _result_header]).
Proof.
  intros Hmin.
  split; [apply validate_timestamps_ok; lia |].
  split; [apply get_summary_record_empty; lia |].
  split; [apply format_output_value_empty |].
  intros from_value to_value t1 t2 c1 c2 tr1 tr2 tr3 Hfrom Hto Ht1 Ht2 Hc1 Hc2.
  unfold main, getitem, dict_get, mbind, M_bind, mret, M_ret.
  cbn [length Nat.eqb lookup list_lookup String.eqb Ascii.eqb Bool.eqb negb].
  rewrite lookup_insert_ne by discriminate.
  rewrite lookup_insert_eq, lookup_insert_eq.
  rewrite (convert_to_timestamp_ok _ _ _ _ Hfrom), Ht1.
  fold tr1. rewrite (convert_to_timestamp_ok _ _ _ _ Hto), Ht2.
  fold tr2. rewrite validate_timestamps_ok by lia.
  rewrite (Chronyk_ctime_ok _ _ _ _ Hc1). fold tr3.
  rewrite (Chronyk_ctime_ok _ _ _ _ Hc2).
  unfold print, emit, try_except.
  rewrite get_summary_record_empty by lia.
  rewrite format_output_value_empty.
  unfold tr3, tr2, tr1. by rewrite <- !app_assoc.
Qed.

Lemma equal_bounds_empty_report_witness :
  main (steady_env "" 1400000015) ["--from"; "1 hour ago"; "--to"; "1 hour ago"] []
    = Ok true
        [EvTimestamp "1 hour ago" (inl 1400000015);
         EvTimestamp "1 hour ago" (inl 1400000015);
         EvCtime "1 hour ago" (inl "Thu May 13 16:53:20 2014");
         EvCtime "1 hour ago" (inl "Thu May 13 16:53:20 2014");
         EvPrint ("Requested records:" +:+ newline +:+ "From  "
                  +:+ "Thu May 13 16:53:20 2014" +:+ newline +:+ "To    "
                  +:+ "Thu May 13 16:53:20 2014");
         EvPrint _result_header].
Proof.
  assert (_min_timestamp <= 1399999980) as Hmin
    by (unfold _min_timestamp; lia).
  apply (proj2 (proj2 (proj2
           (equal_bounds_empty_report (steady_env "" 1400000015)
              1399999980 [] Hmin)))
           "1 hour ago" "1 hour ago" 1400000015 1400000015);
    reflexivity.
Defined.

(** C10, as stated, fails: equal bounds that predate the beacon do not pass
    validation; the run ends in the pre-epoch failure. *)
Lemma equal_bounds_before_beacon :
  validate_timestamps 0 0 []
    = Raised (SystemExit 1) [EvPrint _time_less_than_min] ∧
  validate_timestamps 0 0 [] ≠ Ok true [].
Proof. split; [reflexivity | discriminate]. Qed.

(** ** The frequency reporter *)



Lemma count_filter (s : string) (c : ascii) :
  Py.count s c = length (filter (λ x, x = c) (list_ascii_of_string s)).
Proof.
  induction s as [| x s IH]; [reflexivity |].
  cbn [Py.count list_ascii_of_string]. rewrite filter_cons.
  destruct (Ascii.eqb_spec x c) as [-> | Hne].
  - rewrite decide_True by done. cbn. by rewrite IH.
  - by rewrite decide_False.
Qed.

Lemma count_Permutation (s1 s2 : string) (c : ascii) :
  list_ascii_of_string s1 ≡ₚ list_ascii_of_string s2 → Py.count s1 c = Py.count s2 c.
Proof. intros Hperm. rewrite !count_filter. by rewrite Hperm. Qed.

Lemma count_remove (s : string) (x c : ascii) :
  Py.count (Py.remove s x) c = if decide (c = x) then O else Py.count s c.
Proof.
  induction s as [| y s IH]; [by destruct (decide _) |].
  cbn [Py.remove Py.count].
  destruct (Ascii.eqb_spec y x) as [-> | Hyx].
  - rewrite IH. destruct (decide (c = x)) as [-> | Hcx]; [done |].
    destruct (Ascii.eqb_spec x c); congruence.
  - cbn [Py.count]. rewrite IH.
    destruct (decide (c = x)) as [-> | Hcx]; [| done].
    destruct (Ascii.eqb_spec y x); congruence.
Qed.

Lemma count_pos (s : string) (c : ascii) :
  (0 < Py.count s c)%nat ↔ c ∈ list_ascii_of_string s.
Proof.
  induction s as [| x s IH]; cbn [Py.count list_ascii_of_string].
  - rewrite elem_of_nil. lia.
  - rewrite elem_of_cons, <- IH.
    destruct (Ascii.eqb_spec x c) as [-> | Hne]; [intuition lia |].
    intuition congruence.
Qed.

Lemma length_remove (s : string) (x : ascii) :
  (String.length (Py.remove s x) + Py.count s x = String.length s)%nat.
Proof.
  induction s as [| y s IH]; [reflexivity |].
  cbn [Py.remove Py.count String.length].
  destruct (Ascii.eqb_spec y x); cbn [String.length]; lia.
Qed.

Lemma count_zero_empty (s : string) :
  (∀ c : ascii, Py.count s c = O) → s = "".
Proof.
  destruct s as [| x s]; [done |]. intros Hzero.
  specialize (Hzero x). cbn in Hzero. rewrite Ascii.eqb_refl in Hzero.
  discriminate Hzero.
Qed.

(** The loop prints the lines of [counted], and nothing else. *)
Lemma format_output_loop_run (symbols : list ascii) (output_value : string)
    (tr : list event) :
  format_output_loop symbols output_value tr
    = Ok () (tr ++ (EvPrint ∘ Reference.line <$> counted symbols output_value)).
Proof.
  revert output_value tr.
  induction symbols as [| symbol rest IH]; intros output_value tr.
  - cbn. by rewrite app_nil_r.
  - cbn [format_output_loop counted]. unfold mbind at 1, M_bind at 1.
    destruct (0 <? Py.count output_value symbol)%nat.
    + unfold print, emit. rewrite IH. cbn. by rewrite app_snoc.
    + unfold mret at 1, M_ret at 1. by rewrite IH.
Qed.

Lemma counted_elem (symbols : list ascii) (output_value : string)
    (c : ascii) (n : nat) :
  (c, n) ∈ counted symbols output_value →
  c ∈ symbols ∧ n = Py.count output_value c ∧ (0 < n)%nat.
Proof.
  revert output_value.
  induction symbols as [| symbol rest IH]; intros output_value;
    cbn [counted]; [by rewrite elem_of_nil |].
  rewrite elem_of_app. intros [Hhead | Htail].
  - destruct (Nat.ltb_spec 0 (Py.count output_value symbol));
      [| by apply elem_of_nil in Hhead].
    apply list_elem_of_singleton in Hhead as [= -> ->].
    split; [left |]; done.
  - apply IH in Htail as (Hin & -> & Hpos).
    rewrite count_remove in Hpos |- *.
    destruct (decide (c = symbol)); [lia |].
    split; [by right |]. done.
Qed.

Lemma counted_complete (symbols : list ascii) (output_value : string)
    (c : ascii) :
  c ∈ symbols →
  (0 < Py.count output_value c)%nat →
  (c, Py.count output_value c) ∈ counted symbols output_value.
Proof.
  revert output_value.
  induction symbols as [| symbol rest IH]; intros output_value Hin Hpos;
    [by apply elem_of_nil in Hin |].
  cbn [counted]. rewrite elem_of_app.
  destruct (decide (c = symbol)) as [-> | Hne].
  - left. destruct (Nat.ltb_spec 0 (Py.count output_value symbol)); [| lia].
    by apply list_elem_of_singleton.
  - right. apply elem_of_cons in Hin as [-> | Hin]; [done |].
    specialize (IH (Py.remove output_value symbol) Hin).
    rewrite count_remove, decide_False in IH by done. by apply IH.
Qed.

Lemma counted_fst_elem (symbols : list ascii) (output_value : string)
    (c : ascii) :
  c ∈ (counted symbols output_value).*1
  ↔ c ∈ symbols ∧ (0 < Py.count output_value c)%nat.
Proof.
  rewrite list_elem_of_fmap. split.
  - intros ([c' n] & -> & Hin). apply counted_elem in Hin as (? & -> & ?).
    done.
  - intros [Hin Hpos]. exists (c, Py.count output_value c).
    split; [done |]. by apply counted_complete.
Qed.

Lemma counted_sorted (symbols : list ascii) (output_value : string) :
  StronglySorted Py.char_le symbols →
  StronglySorted Py.char_le (counted symbols output_value).*1.
Proof.
  intros Hsorted. revert output_value.
  induction Hsorted as [| symbol rest Hrest IH Hhead]; intros output_value;
    cbn [counted]; [constructor |].
  rewrite fmap_app.
  assert (Forall (Py.char_le symbol)
            (counted rest (Py.remove output_value symbol)).*1) as Hall.
  { apply Forall_forall. intros c Hc.
    apply counted_fst_elem in Hc as [Hin _].
    rewrite Forall_forall in Hhead. by apply Hhead. }
  destruct (0 <? Py.count output_value symbol)%nat; cbn.
  - constructor; [apply IH | exact Hall].
  - apply IH.
Qed.

Lemma counted_NoDup (symbols : list ascii) (output_value : string) :
  NoDup (counted symbols output_value).*1.
Proof.
  revert output_value.
  induction symbols as [| symbol rest IH]; intros output_value;
    cbn [counted]; [constructor |].
  rewrite fmap_app.
  destruct (0 <? Py.count output_value symbol)%nat; cbn; [| apply IH].
  constructor; [| apply IH].
  rewrite counted_fst_elem, count_remove, decide_True by done. lia.
Qed.

Lemma counted_sum (symbols : list ascii) (output_value : string) :
  (sum_list (counted symbols output_value).*2
   + String.length (foldl Py.remove output_value symbols)
   = String.length output_value)%nat.
Proof.
  revert output_value.
  induction symbols as [| symbol rest IH]; intros output_value;
    cbn [counted foldl]; [reflexivity |].
  rewrite fmap_app, sum_list_with_app.
  specialize (IH (Py.remove output_value symbol)).
  pose proof (length_remove output_value symbol) as Hlen.
  destruct (Nat.ltb_spec 0 (Py.count output_value symbol)); cbn; lia.
Qed.

Lemma remove_all (symbols : list ascii) (output_value : string) :
  (∀ c : ascii, (0 < Py.count output_value c)%nat → c ∈ symbols) →
  foldl Py.remove output_value symbols = "".
Proof.
  revert output_value.
  induction symbols as [| symbol rest IH]; intros output_value Hcover;
    cbn [foldl].
  - apply count_zero_empty. intros c.
    destruct (Py.count output_value c) eqn:Hcount; [done |].
    specialize (Hcover c ltac:(lia)). by apply elem_of_nil in Hcover.
  - apply IH. intros c. rewrite count_remove.
    destruct (decide (c = symbol)) as [-> | Hne]; [lia |].
    intros Hpos. specialize (Hcover c Hpos).
    by apply elem_of_cons in Hcover as [-> | Hin].
Qed.

#[local] Instance char_le_total : Total Py.char_le.
Proof. intros a b. unfold Py.char_le. lia. Qed.

#[local] Instance char_le_trans : Transitive Py.char_le.
Proof. intros a b c. unfold Py.char_le. lia. Qed.

#[local] Instance char_le_antisym : AntiSymm (=) Py.char_le.
Proof.
  intros a b Hab Hba. unfold Py.char_le in *.
  rewrite <- (ascii_N_embedding a), <- (ascii_N_embedding b).
  f_equal. lia.
Qed.

#[local] Instance key_le_total : Total Reference.key_le.
Proof. intros x y. apply (total Py.char_le). Qed.

#[local] Instance key_le_trans : Transitive Reference.key_le.
Proof. intros x y z. apply (transitivity (R := Py.char_le)). Qed.

Lemma sorted_NoDup_strict (l : list ascii) :
  StronglySorted Py.char_le l → NoDup l → StronglySorted char_lt l.
Proof.
  induction 1 as [| x l Hl IH Hx]; intros Hnodup; [constructor |].
  apply NoDup_cons in Hnodup as [Hnotin Hnodup].
  constructor; [by apply IH |].
  rewrite Forall_forall in Hx |- *. intros y Hy.
  specialize (Hx y Hy). unfold Py.char_le, char_lt in *.
  assert (N_of_ascii x ≠ N_of_ascii y) as Hne; [| lia].
  intros Heq. apply Hnotin.
  rewrite <- (ascii_N_embedding x), Heq, ascii_N_embedding. exact Hy.
Qed.

Lemma sorted_Permutation (s : string) : Py.sorted s ≡ₚ list_ascii_of_string s.
Proof. apply merge_sort_Permutation. Qed.

Lemma string_length_chars (s : string) : String.length s = length (list_ascii_of_string s).
Proof. induction s as [| c s IH]; [reflexivity |]. cbn. by rewrite IH. Qed.

Lemma length_sorted (s : string) :
  String.length (Py.join (Py.sorted s)) = String.length s.
Proof.
  rewrite !string_length_chars. unfold Py.join.
  rewrite list_ascii_of_string_of_list_ascii. by rewrite sorted_Permutation.
Qed.

(** What the sorted string counts is what the input counts. *)
Lemma count_sorted (s : string) (c : ascii) :
  Py.count (Py.join (Py.sorted s)) c = Py.count s c.
Proof.
  apply count_Permutation. unfold Py.join.
  rewrite list_ascii_of_string_of_list_ascii. apply sorted_Permutation.
Qed.

(** The mapping of the reference holds, for each character that occurs, the
    number of its occurrences. *)
Lemma tally_fold_lookup (l : list ascii) (m : gmap ascii nat) (c : ascii) :
  foldl (λ (m : gmap ascii nat) (c : ascii), <[c := S (default O (m !! c))]> m)
        m l !! c
  = match length (filter (λ x, x = c) l) with
    | O => m !! c
    | S k => Some (default O (m !! c) + S k)%nat
    end.
Proof.
  revert m. induction l as [| x l IH]; intros m; [reflexivity |].
  cbn [foldl]. rewrite IH, filter_cons.
  destruct (decide (x = c)) as [-> | Hne].
  - rewrite lookup_insert_eq. cbn [length default]. unfold id.
    destruct (length (filter (λ x, x = c) l)); f_equal; lia.
  - by rewrite lookup_insert_ne.
Qed.

Lemma tally_lookup (s : string) (c : ascii) :
  Reference.tally s !! c
  = if decide (Py.count s c = O) then None else Some (Py.count s c).
Proof.
  unfold Reference.tally. rewrite tally_fold_lookup, <- count_filter.
  rewrite lookup_empty.
  destruct (Py.count s c); [done |]. by rewrite decide_False.
Qed.

Lemma sorted_items_elem (s : string) (c : ascii) (n : nat) :
  (c, n) ∈ Reference.sorted_items (Reference.tally s)
  ↔ n = Py.count s c ∧ (0 < n)%nat.
Proof.
  unfold Reference.sorted_items.
  rewrite merge_sort_Permutation, elem_of_map_to_list, tally_lookup.
  destruct (decide (Py.count s c = O)) as [Hzero | Hpos].
  - split; [done | lia].
  - split; [intros [= <-]; lia | by intros [-> _]].
Qed.

Lemma sorted_items_fst_elem (s : string) (c : ascii) :
  c ∈ (Reference.sorted_items (Reference.tally s)).*1
  ↔ (0 < Py.count s c)%nat.
Proof.
  rewrite list_elem_of_fmap. split.
  - intros ([c' n] & -> & Hin). apply sorted_items_elem in Hin as [-> ?].
    done.
  - intros Hpos. exists (c, Py.count s c). split; [done |].
    by apply sorted_items_elem.
Qed.

Lemma sorted_items_NoDup (m : gmap ascii nat) :
  NoDup (Reference.sorted_items m).*1.
Proof.
  unfold Reference.sorted_items. rewrite merge_sort_Permutation.
  apply NoDup_fst_map_to_list.
Qed.

Lemma sorted_items_sorted (m : gmap ascii nat) :
  StronglySorted Py.char_le (Reference.sorted_items m).*1.
Proof.
  unfold Reference.sorted_items.
  apply (StronglySorted_fmap fst Reference.key_le); [done |].
  apply StronglySorted_merge_sort; apply _.
Qed.

(** Two lists of pairs with the same keys, whose values are a function of
    the key, are the same list. *)
Lemma pairs_determined {A B} (f : A → B) (l1 l2 : list (A * B)) :
  l1.*1 = l2.*1 →
  (∀ a b, (a, b) ∈ l1 → b = f a) →
  (∀ a b, (a, b) ∈ l2 → b = f a) →
  l1 = l2.
Proof.
  revert l2. induction l1 as [| [a1 b1] l1 IH]; intros [| [a2 b2] l2];
    cbn; intros Hkeys H1 H2; try done.
  injection Hkeys as -> Hkeys.
  rewrite (H1 a2 b1), (H2 a2 b2) by left.
  f_equal. apply IH; [done | |]; intros a b Hin.
  - apply H1. by right.
  - apply H2. by right.
Qed.

(** The pairs printed by the code are the entries of the reference. *)
Lemma counted_reference (s : string) :
  counted (Py.sorted s) (Py.join (Py.sorted s))
    = Reference.sorted_items (Reference.tally s).
Proof.
  apply (pairs_determined (Py.count s)).
  - apply (StronglySorted_unique Py.char_le).
    + apply counted_sorted, StronglySorted_merge_sort; apply _.
    + apply sorted_items_sorted.
    + apply NoDup_Permutation;
        [apply counted_NoDup | apply sorted_items_NoDup |].
      intros c. rewrite counted_fst_elem, sorted_items_fst_elem, count_sorted.
      rewrite sorted_Permutation, <- count_pos. tauto.
  - intros c n Hin. apply counted_elem in Hin as (_ & -> & _).
    apply count_sorted.
  - intros c n Hin. by apply sorted_items_elem in Hin as [-> _].
Qed.

Lemma reference_run (s : string) (tr : list event) :
  Reference.run s tr
    = Ok () (tr ++ EvPrint _result_header
                :: (EvPrint ∘ Reference.line
                      <$> Reference.sorted_items (Reference.tally s))).
Proof.
  unfold Reference.run, Reference.report.
  unfold mbind at 1, M_bind at 1, print at 1, emit.
  generalize (Reference.sorted_items (Reference.tally s)).
  intros items.
  assert (∀ tr0 : list event,
            foldr (λ (text : string) (rest : M unit), print text;; rest)
                  (mret ()) (Reference.line <$> items) tr0
            = Ok () (tr0 ++ (EvPrint ∘ Reference.line <$> items))) as Hlines.
  { induction items as [| item items IH]; intros tr0; cbn.
    - by rewrite app_nil_r.
    - unfold mbind at 1, M_bind at 1, print at 1, emit.
      rewrite IH. by rewrite app_snoc. }
  by rewrite Hlines, app_snoc.
Qed.

(** C1: [format_output_value] prints, after its header, exactly the lines of
    the reference that builds the character-to-count mapping in one pass and
    emits it sorted by key.  Those lines come one per distinct character of
    the input, in strictly ascending character order, each with the number
    of occurrences of its character in the input, and the counts add up to
    the length of the input. *)
Theorem format_output_value_report (s : string) (tr : list event) :
  let items := Reference.sorted_items (Reference.tally s) in
  format_output_value s tr = Reference.run s tr ∧
  format_output_value s tr
    = Ok () (tr ++ EvPrint _result_header
                :: (EvPrint ∘ Reference.line <$> items)) ∧
  StronglySorted char_lt items.*1 ∧
  (∀ c : ascii, c ∈ items.*1 ↔ c ∈ list_ascii_of_string s) ∧
  (∀ (c : ascii) (n : nat), (c, n) ∈ items → n = Py.count s c) ∧
  sum_list items.*2 = String.length s.
Proof.
  intros items.
  assert (format_output_value s tr
          = Ok () (tr ++ EvPrint _result_header
                      :: (EvPrint ∘ Reference.line <$> items))) as Hrun.
  { unfold format_output_value.
    unfold mbind at 1, M_bind at 1, print at 1, emit.
    rewrite format_output_loop_run. unfold Py.join at 1.
    rewrite list_ascii_of_string_of_list_ascii, counted_reference.
    by rewrite app_snoc. }
  split; [by rewrite reference_run |].
  split; [exact Hrun |].
  split; [apply sorted_NoDup_strict;
          [apply sorted_items_sorted | apply sorted_items_NoDup] |].
  split; [intros c; unfold items;
          by rewrite sorted_items_fst_elem, count_pos |].
  split; [intros c n Hin; by apply sorted_items_elem in Hin as [-> _] |].
  unfold items. rewrite <- counted_reference.
  pose proof (counted_sum (Py.sorted s) (Py.join (Py.sorted s))) as Hsum.
  rewrite remove_all in Hsum.
  - cbn in Hsum. rewrite Nat.add_0_r in Hsum.
    by rewrite Hsum, length_sorted.
  - intros c. rewrite count_pos. unfold Py.join.
    by rewrite list_ascii_of_string_of_list_ascii.
Qed.

(** ** Sanity checks of the embedding, on the examples of the design *)

Example format_output_value_aabbc :
  format_output_value "aabbc" []
    = Ok () [EvPrint _result_header;
             EvPrint "a,2"; EvPrint "b,2"; EvPrint "c,1"].
Proof. vm_compute. reflexivity. Qed.

Example main_latest_record :
  main (steady_env "<record><outputValue>17C4C1</outputValue></record>" 0)
       [] []
    = Ok true
        [EvUrlopen "https://beacon.nist.gov/rest/record/last/"
           (inl (bytes_of
                   "<record><outputValue>17C4C1</outputValue></record>"));
         EvPrint _result_header;
         EvPrint "1,2"; EvPrint "4,1"; EvPrint "7,1"; EvPrint "C,2"].
Proof. vm_compute. reflexivity. Qed.

Example main_unreachable :
  main dead_env [] []
    = Raised UnboundLocalError
        [EvUrlopen "https://beacon.nist.gov/rest/record/last/" (inr IOError);
         EvPrint _host_unreachable].
Proof. vm_compute. reflexivity. Qed.

(** The pattern finds the first element: with no [<] before the element,
    and neither [<] nor a newline inside it, the search returns the inner
    text. *)
Lemma startswith_app (sub rest : string) :
  Py.startswith (sub +:+ rest) sub = true.
Proof.
  induction sub as [| c sub IH]; [by destruct rest |].
  change (Ascii.eqb c c && Py.startswith (sub +:+ rest) sub = true).
  by rewrite Ascii.eqb_refl, IH.
Qed.

Lemma drop_app (sub rest : string) :
  Py.drop (String.length sub) (sub +:+ rest) = rest.
Proof.
  induction sub as [| c sub IH]; [by destruct rest |].
  change (Py.drop (String.length sub) (sub +:+ rest) = rest). exact IH.
Qed.

Lemma lazy_group_inner (inner rest : string) :
  (∀ c : ascii, c ∈ list_ascii_of_string inner → c ≠ "<"%char ∧ c ≠ Py.nl) →
  lazy_group (inner +:+ "</outputValue>" +:+ rest) = Some inner.
Proof.
  induction inner as [| c inner IH]; intros Hclean.
  - change ("" +:+ "</outputValue>" +:+ rest)
      with ("</outputValue>" +:+ rest).
    destruct rest; reflexivity.
  - change (String c inner +:+ "</outputValue>" +:+ rest)
      with (String c (inner +:+ "</outputValue>" +:+ rest)).
    destruct (Hclean c ltac:(left)) as [Hlt Hnl].
    cbn [lazy_group Py.startswith].
    destruct (Ascii.eqb_spec "<" c) as [<- | _]; [done |].
    destruct (Ascii.eqb_spec c Py.nl) as [-> | _]; [done |].
    cbn [andb]. rewrite IH; [done |].
    intros c' Hin. apply Hclean. by right.
Qed.


(** X5: the pattern returns the inner text of the first element: with no
    [<] before the element, and neither [<] nor a newline inside it, the
    search yields exactly that text, whatever follows. *)
Lemma re_search_first_element (before inner rest : string) :
  (∀ c : ascii, c ∈ list_ascii_of_string before → c ≠ "<"%char) →
  (∀ c : ascii, c ∈ list_ascii_of_string inner → c ≠ "<"%char ∧ c ≠ Py.nl) →
  re_search (before +:+ "<outputValue>" +:+ inner +:+ "</outputValue>"
             +:+ rest)
    = Some inner.
Proof.
  intros Hbefore Hinner.
  induction before as [| c before IH].
  - change ("" +:+ "<outputValue>" +:+ inner +:+ "</outputValue>" +:+ rest)
      with ("<outputValue>" +:+ inner +:+ "</outputValue>" +:+ rest).
    assert (match_here ("<outputValue>" +:+ inner +:+ "</outputValue>"
                        +:+ rest) = Some inner) as Hhere.
    { unfold match_here. rewrite startswith_app.
      rewrite (drop_app "<outputValue>"). by apply lazy_group_inner. }
    change (re_search ?text)
      with (match match_here text with
            | Some group1 => Some group1
            | None => match text with
                      | EmptyString => None
                      | String _ text' => re_search text'
                      end
            end).
    by rewrite Hhere.
  - change (String c before +:+ ?tail) with (String c (before +:+ tail)).
    assert (c ≠ "<"%char) as Hc by (apply Hbefore; left).
    change (re_search (String c ?text))
      with (match match_here (String c text) with
            | Some group1 => Some group1
            | None => re_search text
            end).
    unfold match_here. cbn [Py.startswith].
    destruct (Ascii.eqb_spec "<" c) as [<- | _]; [done |].
    cbn [andb]. apply IH. intros c' Hin. apply Hbefore. by right.
Qed.

(** * Further properties of the script *)

(** ** The pattern of [parse_xml] *)

Lemma startswith_split (s sub : string) :
  Py.startswith s sub = true → s = sub +:+ Py.drop (String.length sub) s.
Proof.
  revert s. induction sub as [| a sub IH]; intros s Hstarts; [done |].
  destruct s as [| b s]; [discriminate Hstarts |].
  cbn [Py.startswith] in Hstarts.
  apply andb_true_iff in Hstarts as [Hhead Htail].
  apply Ascii.eqb_eq in Hhead as ->.
  change (String b s = String b (sub +:+ Py.drop (String.length sub) s)).
  f_equal. by apply IH.
Qed.

Lemma chars_app (s1 s2 : string) :
  list_ascii_of_string (s1 +:+ s2)
    = list_ascii_of_string s1 ++ list_ascii_of_string s2.
Proof.
  induction s1 as [| c s1 IH]; [reflexivity |].
  change (c :: list_ascii_of_string (s1 +:+ s2)
          = c :: (list_ascii_of_string s1 ++ list_ascii_of_string s2)).
  by rewrite IH.
Qed.

Lemma lazy_group_sound (rest group1 : string) :
  lazy_group rest = Some group1 →
  (∃ after : string, rest = group1 +:+ "</outputValue>" +:+ after) ∧
  (Py.nl ∉ list_ascii_of_string group1) ∧
  (∀ a b : string, group1 ≠ a +:+ "</outputValue>" +:+ b).
Proof.
  revert group1. induction rest as [| c rest IH]; intros group1.
  - cbn. discriminate.
  - cbn [lazy_group].
    destruct (Py.startswith (String c rest) "</outputValue>") eqn:Hstarts.
    + intros [= <-]. split; [| split].
      * eexists. by apply (startswith_split _ "</outputValue>").
      * apply not_elem_of_nil.
      * intros [| x a] b Habs; discriminate Habs.
    + destruct (Ascii.eqb_spec c Py.nl) as [-> | Hnl]; [discriminate |].
      destruct (lazy_group rest) as [inner |] eqn:Hinner; [| discriminate].
      intros [= <-].
      destruct (IH inner eq_refl) as ((after & ->) & Hnonl & Hlazy).
      split; [by exists after |]. split.
      * cbn. rewrite not_elem_of_cons. by split.
      * intros [| x a] b Habs.
        -- change (String c inner = "</outputValue>" +:+ b) in Habs.
           change (String c (inner +:+ "</outputValue>" +:+ after))
             with (String c inner +:+ "</outputValue>" +:+ after)
             in Hstarts.
           rewrite Habs, string_app_assoc, startswith_app in Hstarts.
           discriminate Hstarts.
        -- change (String c inner = String x (a +:+ "</outputValue>" +:+ b))
             in Habs.
           injection Habs as _ Habs. by apply (Hlazy a b).
Qed.

(** X3: a value found by the pattern is framed by the two tags in the text,
    holds no newline, and does not reach over a closing tag. *)
Theorem re_search_sound (text group1 : string) :
  re_search text = Some group1 →
  (∃ before after : string,
     text = before +:+ "<outputValue>" +:+ group1 +:+ "</outputValue>"
            +:+ after) ∧
  (Py.nl ∉ list_ascii_of_string group1) ∧
  (∀ a b : string, group1 ≠ a +:+ "</outputValue>" +:+ b).
Proof.
  induction text as [| c text IH].
  - cbv. discriminate.
  - change (re_search (String c text))
      with (match match_here (String c text) with
            | Some group1 => Some group1
            | None => re_search text
            end).
    destruct (match_here (String c text)) as [found |] eqn:Hhere.
    + intros [= ->]. unfold match_here in Hhere.
      destruct (Py.startswith (String c text) "<outputValue>") eqn:Hstarts;
        [| discriminate].
      apply lazy_group_sound in Hhere as ((after & Hrest) & Hnonl & Hlazy).
      split; [| by split].
      exists "", after.
      apply (startswith_split _ "<outputValue>") in Hstarts.
      rewrite Hstarts. cbn [String.length]. by rewrite Hrest.
    + intros Hsearch. destruct (IH Hsearch) as ((before & after & ->) & Hrest).
      split; [| exact Hrest]. by exists (String c before), after.
Qed.

Lemma re_search_sound_witness :
  ∃ before after : string,
    "<r><outputValue>17C4</outputValue></r>"
      = before +:+ "<outputValue>" +:+ "17C4" +:+ "</outputValue>" +:+ after.
Proof.
  apply (re_search_sound "<r><outputValue>17C4</outputValue></r>" "17C4").
  reflexivity.
Defined.

Lemma lazy_group_complete (group1 after : string) :
  Py.nl ∉ list_ascii_of_string group1 →
  is_Some (lazy_group (group1 +:+ "</outputValue>" +:+ after)).
Proof.
  induction group1 as [| c group1 IH]; intros Hnonl.
  - change ("" +:+ "</outputValue>" +:+ after)
      with ("</outputValue>" +:+ after).
    destruct after; by eexists.
  - change (String c group1 +:+ "</outputValue>" +:+ after)
      with (String c (group1 +:+ "</outputValue>" +:+ after)).
    cbn [lazy_group].
    destruct (Py.startswith _ "</outputValue>"); [by eexists |].
    cbn in Hnonl. apply not_elem_of_cons in Hnonl as [Hc Hnonl].
    destruct (Ascii.eqb_spec c Py.nl) as [-> | _]; [done |].
    destruct (IH Hnonl) as [found ->]. by eexists.
Qed.

(** X4: the pattern misses nothing: a text that holds the two tags around a
    run without a newline always yields a value. *)
Theorem re_search_complete (before group1 after : string) :
  Py.nl ∉ list_ascii_of_string group1 →
  is_Some (re_search (before +:+ "<outputValue>" +:+ group1
                      +:+ "</outputValue>" +:+ after)).
Proof.
  intros Hnonl. induction before as [| c before IH].
  - change ("" +:+ "<outputValue>" +:+ group1 +:+ "</outputValue>" +:+ after)
      with ("<outputValue>" +:+ group1 +:+ "</outputValue>" +:+ after).
    destruct (lazy_group_complete group1 after Hnonl) as [found Hfound].
    exists found.
    change (re_search ?text)
      with (match match_here text with
            | Some group1 => Some group1
            | None => match text with
                      | EmptyString => None
                      | String _ text' => re_search text'
                      end
            end).
    unfold match_here. rewrite startswith_app.
    by rewrite (drop_app "<outputValue>"), Hfound.
  - change (String c before +:+ ?tail) with (String c (before +:+ tail)).
    change (re_search (String c ?text))
      with (match match_here (String c text) with
            | Some group1 => Some group1
            | None => re_search text
            end).
    destruct (match_here _); [by eexists | exact IH].
Qed.

Lemma re_search_complete_witness :
  is_Some (re_search ("<a>" +:+ "<outputValue>" +:+ "<b>x" +:+ "</outputValue>"
                      +:+ "</a>")).
Proof.
  apply (re_search_complete "<a>" "<b>x" "</a>").
  vm_compute. intros Hin. repeat (apply elem_of_cons in Hin as [Hin | Hin];
                                   [discriminate Hin |]).
  by apply elem_of_nil in Hin.
Defined.

(** ** The text that [get_xml] hands on *)






(** X2: [parse_xml] prints its diagnosis, and leaves through [sys.exit(1)],
    exactly when it is handed [None]; handed a text, it prints nothing, and
    it returns a value exactly when the pattern finds one. *)
Theorem parse_xml_diagnosis (xml : option string) (tr : list event) :
  final_trace (parse_xml xml tr)
    = tr ++ (if xml is None then [EvPrint _value_not_found] else []) ∧
  (parse_xml xml tr = Raised (SystemExit 1) (tr ++ [EvPrint _value_not_found])
   ↔ xml = None) ∧
  ∀ output_value : string,
    (∃ tr' : list event, parse_xml xml tr = Ok output_value tr')
    ↔ ∃ text : string, xml = Some text ∧ re_search text = Some output_value.
Proof.
  destruct xml as [text |].
  - unfold parse_xml, try_except, mret, M_ret, raise.
    destruct (re_search text) as [found |] eqn:Hsearch; cbn;
      rewrite app_nil_r.
    + split; [done |]. split; [split; discriminate |].
      intros output_value. split.
      * intros (tr' & [= <- _]). by exists text.
      * intros (text' & [= <-] & Hfound). rewrite Hsearch in Hfound.
        injection Hfound as <-. by exists tr.
    + split; [done |]. split; [split; discriminate |].
      intros output_value. split.
      * intros (tr' & Habs). discriminate Habs.
      * intros (text' & [= <-] & Habs). rewrite Hsearch in Habs.
        discriminate Habs.
  - split; [done |]. split; [done |].
    intros output_value. split.
    + intros (tr' & Habs). discriminate Habs.
    + intros (text & Habs & _). discriminate Habs.
Qed.

(** ** Validation and the time parser, together *)

Lemma validate_timestamps_run (from_timestamp to_timestamp : Z)
    (tr : list event) :
  validate_timestamps from_timestamp to_timestamp tr
    = if to_timestamp <? from_timestamp
      then Raised (SystemExit 1) (tr ++ [EvPrint _from_less_than_to])
      else if (from_timestamp <? _min_timestamp)
              || (to_timestamp <? _min_timestamp)
      then Raised (SystemExit 1) (tr ++ [EvPrint _time_less_than_min])
      else Ok true tr.
Proof.
  unfold validate_timestamps.
  destruct (to_timestamp <? from_timestamp); [done |].
  by destruct (_ || _).
Qed.

Lemma validate_timestamps_ok_inv (from_timestamp to_timestamp : Z)
    (answer : bool) (tr tr' : list event) :
  validate_timestamps from_timestamp to_timestamp tr = Ok answer tr' →
  answer = true ∧ tr' = tr ∧
  _min_timestamp <= from_timestamp <= to_timestamp.
Proof.
  rewrite validate_timestamps_run.
  destruct (Z.ltb_spec to_timestamp from_timestamp); [discriminate |].
  destruct (Z.ltb_spec from_timestamp _min_timestamp); [discriminate |].
  destruct (Z.ltb_spec to_timestamp _min_timestamp); [discriminate |].
  cbn. intros [= <- <-]. repeat split; lia.
Qed.

(** X6: [validate_timestamps] returns, with [True] and without printing,
    exactly when [_min_timestamp <= from_timestamp <= to_timestamp];
    otherwise it prints one of its two messages, and only that, and leaves
    through [sys.exit(1)]. *)
Theorem validate_timestamps_outcome (from_timestamp to_timestamp : Z)
    (tr : list event) :
  match validate_timestamps from_timestamp to_timestamp tr with
  | Ok answer tr' =>
      answer = true ∧ tr' = tr ∧
      _min_timestamp <= from_timestamp <= to_timestamp
  | Raised e tr' =>
      e = SystemExit 1 ∧
      ¬ (_min_timestamp <= from_timestamp <= to_timestamp) ∧
      (tr' = tr ++ [EvPrint _from_less_than_to] ∨
       tr' = tr ++ [EvPrint _time_less_than_min])
  end.
Proof.
  unfold validate_timestamps.
  destruct (Z.ltb_spec to_timestamp from_timestamp).
  - cbn. split; [done |]. split; [lia | by left].
  - destruct (Z.ltb_spec from_timestamp _min_timestamp);
      destruct (Z.ltb_spec to_timestamp _min_timestamp); cbn;
      try (split; [done |]; split; [lia | by right]).
    split; [done |]. split; [done | lia].
Qed.



(** ** The probes of a ranged query *)

Lemma str_int_inj (a b : Z) : Py.str_int a = Py.str_int b → a = b.
Proof.
  unfold Py.str_int. intros Heq.
  apply DecimalZ.to_int_inj.
  assert (∀ z : Z, NilZero.int_of_string (NilZero.string_of_int (Z.to_int z))
                   = Some (Z.to_int z)) as Hround.
  { intros z. apply NilZero.isi; destruct z; cbn; try discriminate;
      intros [= Hnil]; by apply DecimalPos.Unsigned.to_uint_nonnil in Hnil. }
  apply (f_equal NilZero.int_of_string) in Heq.
  rewrite !Hround in Heq. by injection Heq.
Qed.

Lemma string_app_inv_head (s t1 t2 : string) : s +:+ t1 = s +:+ t2 → t1 = t2.
Proof.
  induction s as [| c s IH]; [done |].
  change (String c (s +:+ t1) = String c (s +:+ t2) → t1 = t2).
  intros [= Heq]. by apply IH.
Qed.

Lemma probe_url_inj (a b : Z) : probe_url a = probe_url b → a = b.
Proof.
  unfold probe_url. intros Heq.
  by apply str_int_inj, (string_app_inv_head _main_url).
Qed.

Lemma range_NoDup (start stop step : Z) :
  0 < step → NoDup (Py.range start stop step).
Proof.
  intros Hstep.
  pose proof (range_increasing start stop step Hstep) as Hsorted.
  induction Hsorted as [| t l Hl IH Ht]; constructor; [| exact IH].
  intros Hin. rewrite Forall_forall in Ht. specialize (Ht t Hin). lia.
Qed.

Lemma get_summary_record_requests (E : env) (from_timestamp to_timestamp : Z)
    (tr : list event) :
  ∃ new : list event,
    final_trace (get_summary_record E from_timestamp to_timestamp tr)
      = tr ++ new ∧
    requested_urls new
      `prefix_of` (probe_url <$> Py.range from_timestamp to_timestamp _frequency).
Proof.
  unfold get_summary_record.
  pose proof (get_summary_loop_probes E
                (Py.range from_timestamp to_timestamp _frequency)
                (Py.enumerate (Py.range from_timestamp to_timestamp _frequency))
                "" tr) as Hloop.
  rewrite enumerate_snd in Hloop.
  destruct (get_summary_loop E _ _ "" tr) as [summary tr' | e tr'].
  - destruct Hloop as (new & -> & Hurls & _). exists new.
    split; [done |]. by rewrite Hurls.
  - destruct Hloop as (new & -> & Hurls). by exists new.
Qed.

(** X9: no record is asked for twice: in any run of [get_summary_record],
    finished or cut short, the URLs requested are pairwise distinct, since
    distinct timestamps are written as distinct decimal numbers. *)
Theorem get_summary_record_no_repeat (E : env)
    (from_timestamp to_timestamp : Z) (tr : list event) :
  (∀ a b : Z, probe_url a = probe_url b → a = b) ∧
  ∃ new : list event,
    final_trace (get_summary_record E from_timestamp to_timestamp tr)
      = tr ++ new ∧
    NoDup (requested_urls new).
Proof.
  split; [exact probe_url_inj |].
  destruct (get_summary_record_requests E from_timestamp to_timestamp tr)
    as (new & Htrace & [rest Hprefix]).
  exists new. split; [exact Htrace |].
  assert (NoDup (probe_url <$> Py.range from_timestamp to_timestamp _frequency))
    as Hnodup.
  { pose proof (probe_url_inj : Inj (=) (=) probe_url) as Hinj.
    apply (NoDup_fmap_2 _). by apply range_NoDup. }
  rewrite Hprefix in Hnodup. by apply NoDup_app in Hnodup as [? _].
Qed.

(** X8: timestamps that come out of [convert_to_timestamp] and pass
    [validate_timestamps] make every request of [get_summary_record] one for
    a whole minute, not before the start of the beacon and strictly before
    the upper bound. *)
Theorem get_summary_record_aligned (E : env) (relative_time : string)
    (from_timestamp to_timestamp : Z) (tr0 tr1 tr new : list event)
    (url : string) :
  convert_to_timestamp E relative_time tr0 = Ok from_timestamp tr1 →
  validate_timestamps from_timestamp to_timestamp tr1 = Ok true tr1 →
  final_trace (get_summary_record E from_timestamp to_timestamp tr)
    = tr ++ new →
  url ∈ requested_urls new →
  ∃ timestamp : Z,
    url = probe_url timestamp ∧
    timestamp `mod` 60 = 0 ∧
    _min_timestamp <= timestamp < to_timestamp ∧
    (timestamp - from_timestamp) `mod` 3600 = 0.
Proof.
  intros Hconvert Hvalid Htrace Hurl.
  assert (from_timestamp `mod` 60 = 0) as Hminute.
  { unfold convert_to_timestamp, Chronyk_timestamp, ask, try_except,
      mbind, M_bind, mret, M_ret in Hconvert.
    destruct (chronyk_timestamp E tr0 relative_time) as [t | e].
    - injection Hconvert as <- _.
      rewrite Zminus_mod, Zmod_mod, Z.sub_diag. reflexivity.
    - cbn [find_handler] in Hconvert.
      destruct (isinstance e TypeError); [discriminate Hconvert |].
      destruct (isinstance e ValueError); discriminate Hconvert. }
  apply validate_timestamps_ok_inv in Hvalid as (_ & _ & Hmin & Hle).
  destruct (get_summary_record_requests E from_timestamp to_timestamp tr)
    as (new' & Htrace' & Hprefix).
  rewrite Htrace in Htrace'. apply app_inv_head in Htrace' as <-.
  destruct Hprefix as [rest Hprefix].
  assert (url ∈ probe_url <$> Py.range from_timestamp to_timestamp _frequency)
    as Hin by (rewrite Hprefix; apply elem_of_app; by left).
  apply list_elem_of_fmap in Hin as (timestamp & -> & Hin).
  apply elem_of_range in Hin as (k & Hk & -> & Hlt); [| done].
  exists (from_timestamp + k * _frequency). split; [done |].
  unfold _frequency in *.
  split; [| split; [nia |]].
  - replace (k * 3600) with ((k * 60) * 60) by lia.
    by rewrite Z_mod_plus_full.
  - replace (from_timestamp + k * 3600 - from_timestamp) with (k * 3600)
      by lia.
    apply Z_mod_mult.
Qed.

Lemma get_summary_record_aligned_witness :
  ∃ timestamp : Z,
    "https://beacon.nist.gov/rest/record/1400003580" = probe_url timestamp ∧
    timestamp `mod` 60 = 0 ∧
    _min_timestamp <= timestamp < 1400007180 ∧
    (timestamp - 1399999980) `mod` 3600 = 0.
Proof.
  apply (get_summary_record_aligned
           (steady_env "<outputValue>17C4</outputValue>" 1400000015)
           "2 hours ago" 1399999980 1400007180
           [] [EvTimestamp "2 hours ago" (inl 1400000015)] []
           [EvUrlopen "https://beacon.nist.gov/rest/record/1399999980"
              (inl (bytes_of "<outputValue>17C4</outputValue>"));
            EvProgress 0 2; EvFlush;
            EvUrlopen "https://beacon.nist.gov/rest/record/1400003580"
              (inl (bytes_of "<outputValue>17C4</outputValue>"));
            EvProgress 1 2; EvFlush]).
  - reflexivity.
  - reflexivity.
  - vm_compute. reflexivity.
  - vm_compute. right. left.
Defined.

Lemma range_length_closed (start stop : Z) :
  length (Py.range start stop _frequency)
    = Z.to_nat ((stop - start + 3599) / 3600).
Proof.
  unfold Py.range. rewrite length_map, length_seq.
  unfold Py.range_length, _frequency.
  destruct (Z.ltb_spec start stop) as [Hlt | Hge].
  - f_equal. rewrite <- (Z.div_add _ 1 3600) by lia. f_equal. lia.
  - assert ((stop - start + 3599) / 3600 < 1)
      by (apply Z.div_lt_upper_bound; lia).
    lia.
Qed.

Lemma get_summary_loop_completed (E : env) (timestamps_list : list Z)
    (items : list (nat * Z)) (output_data summary : string)
    (tr tr' : list event) :
  get_summary_loop E timestamps_list items output_data tr = Ok summary tr' →
  ∃ (bodies : list (list byte)) (values : list string),
    length bodies = length items ∧
    Forall2 (λ body value, re_search (Py.str_bytes body) = Some value)
      bodies values ∧
    tr' = tr ++ mjoin (zip_with (round_events (length timestamps_list))
                         items bodies) ∧
    summary = output_data +:+ concat_values values.
Proof.
  revert output_data tr.
  induction items as [| [index timestamp] rest IH]; intros output_data tr.
  - cbn. intros [= <- <-]. exists [], [].
    cbn. by rewrite app_nil_r, string_app_nil_r.
  - rewrite get_summary_loop_step. cbn zeta.
    fold (probe_url timestamp).
    destruct (urlopen_read E tr (probe_url timestamp)) as [body | e];
      [| destruct (isinstance e IOError); discriminate].
    destruct (re_search (Py.str_bytes body)) as [value |] eqn:Hvalue;
      [| discriminate].
    rewrite progress_bar_run.
    destruct (_ <=? _); [| discriminate].
    destruct (_ =? _)%nat; [discriminate |].
    intros Hrest.
    apply IH in Hrest as (bodies & values & Hlen & Hvalues & -> & ->).
    exists (body :: bodies), (value :: values).
    split; [cbn; by rewrite Hlen |].
    split; [by constructor |].
    split; [cbn; by rewrite <- !app_assoc |].
    cbn. by rewrite string_app_assoc.
Qed.

(** X10: the trace of a run of [get_summary_record] that returns is, for each
    timestamp in order, the request, the progress line for item [i] of [n]
    and the flush, and nothing else: no message is printed on the way.
    [n], the number of records fetched, is [(to - from + 3599) / 3600],
    rounded up from the length of the range in hours, and the summary is the
    concatenation of the values found in the bodies. *)
Theorem get_summary_record_completed (E : env)
    (from_timestamp to_timestamp : Z) (summary : string)
    (tr tr' : list event) :
  get_summary_record E from_timestamp to_timestamp tr = Ok summary tr' →
  let timestamps := Py.range from_timestamp to_timestamp _frequency in
  let n := length timestamps in
  n = Z.to_nat ((to_timestamp - from_timestamp + 3599) / 3600) ∧
  ∃ (bodies : list (list byte)) (values : list string),
    length bodies = n ∧
    Forall2 (λ body value, re_search (Py.str_bytes body) = Some value)
      bodies values ∧
    tr' = tr ++ mjoin (zip_with (round_events n) (Py.enumerate timestamps)
                         bodies) ∧
    summary = concat_values values.
Proof.
  intros Hrun timestamps n.
  split; [apply range_length_closed |].
  unfold get_summary_record in Hrun. fold timestamps in Hrun.
  apply get_summary_loop_completed in Hrun
    as (bodies & values & Hlen & Hvalues & -> & ->).
  exists bodies, values. repeat split; try done.
  rewrite Hlen. unfold Py.enumerate. rewrite length_combine, length_seq.
  fold timestamps. unfold n. lia.
Qed.

Lemma get_summary_record_completed_witness :
  let body := bytes_of "<record><outputValue>17C4</outputValue></record>" in
  2%nat = Z.to_nat ((1400007200 - 1400000000 + 3599) / 3600) ∧
  ∃ (bodies : list (list byte)) (values : list string),
    length bodies = 2%nat ∧
    Forall2 (λ body value, re_search (Py.str_bytes body) = Some value)
      bodies values ∧
    [EvUrlopen "https://beacon.nist.gov/rest/record/1400000000" (inl body);
     EvProgress 0 2; EvFlush;
     EvUrlopen "https://beacon.nist.gov/rest/record/1400003600" (inl body);
     EvProgress 1 2; EvFlush]
      = [] ++ mjoin (zip_with (round_events 2)
                       (Py.enumerate (Py.range 1400000000 1400007200 _frequency))
                       bodies) ∧
    "17C417C4" = concat_values values.
Proof.
  intros body.
  apply (get_summary_record_completed
           (steady_env "<record><outputValue>17C4</outputValue></record>" 0)
           1400000000 1400007200 "17C417C4" []).
  vm_compute. reflexivity.
Defined.

(** ** The report and the order of its input *)

Lemma format_output_value_run (s : string) (tr : list event) :
  format_output_value s tr
    = Ok () (tr ++ EvPrint _result_header
                :: (EvPrint ∘ Reference.line
                      <$> Reference.sorted_items (Reference.tally s))).
Proof.
  unfold format_output_value.
  unfold mbind at 1, M_bind at 1, print at 1, emit.
  rewrite format_output_loop_run. unfold Py.join at 1.
  rewrite list_ascii_of_string_of_list_ascii, counted_reference.
  by rewrite app_snoc.
Qed.

(** X11: the report depends on which characters the input holds and how
    often, not on where they stand: two strings that are rearrangements of
    one another give the same output.  So the order in which the records
    were concatenated does not show in the report. *)
Theorem format_output_value_order_free (s1 s2 : string) (tr : list event) :
  list_ascii_of_string s1 ≡ₚ list_ascii_of_string s2 →
  format_output_value s1 tr = format_output_value s2 tr.
Proof.
  intros Hperm. rewrite !format_output_value_run.
  replace (Reference.tally s2) with (Reference.tally s1); [done |].
  apply map_eq. intros c. rewrite !tally_lookup.
  by rewrite (count_Permutation s1 s2 c Hperm).
Qed.

Lemma format_output_value_order_free_witness :
  format_output_value ("17C4" +:+ "C1A0") []
    = format_output_value ("C1A0" +:+ "17C4") [].
Proof.
  apply (format_output_value_order_free ("17C4" +:+ "C1A0")
           ("C1A0" +:+ "17C4") []).
  change (list_ascii_of_string ("17C4" +:+ "C1A0"))
    with (list_ascii_of_string "17C4" ++ list_ascii_of_string "C1A0").
  change (list_ascii_of_string ("C1A0" +:+ "17C4"))
    with (list_ascii_of_string "C1A0" ++ list_ascii_of_string "17C4").
  apply Permutation_app_comm.
Defined.

Lemma count_app (s1 s2 : string) (c : ascii) :
  Py.count (s1 +:+ s2) c = (Py.count s1 c + Py.count s2 c)%nat.
Proof.
  rewrite !count_filter, chars_app, filter_app, length_app. reflexivity.
Qed.

Lemma count_concat_values (values : list string) (c : ascii) :
  Py.count (concat_values values) c
    = sum_list ((λ value, Py.count value c) <$> values).
Proof.
  induction values as [| value values IH]; [reflexivity |].
  cbn [concat_values foldr fmap list_fmap sum_list_with]. fold (concat_values values).
  rewrite count_app, IH. reflexivity.
Qed.

Lemma printed_app (tr1 tr2 : list event) :
  printed (tr1 ++ tr2) = printed tr1 ++ printed tr2.
Proof. apply omap_app. Qed.

Lemma printed_lines (lines : list string) :
  printed (EvPrint <$> lines) = lines.
Proof.
  induction lines as [| text lines IH]; [reflexivity |].
  cbn. f_equal. exact IH.
Qed.

Lemma line_inj (item1 item2 : ascii * nat) :
  Reference.line item1 = Reference.line item2 → item1 = item2.
Proof.
  destruct item1 as [c1 n1], item2 as [c2 n2]. unfold Reference.line. cbn.
  change (String ?c "," +:+ ?rest) with (String c (String "," rest)).
  intros [= -> Hcount]. apply str_int_inj, Nat2Z.inj in Hcount.
  by rewrite Hcount.
Qed.

(** X12: on the concatenation of several output values, the line printed for
    a character shows the sum of its occurrences in the single values, and
    a character that occurs in none of them gets no line. *)
Theorem format_output_value_adds_up (values : list string) (c : ascii)
    (tr : list event) :
  let total := sum_list ((λ value, Py.count value c) <$> values) in
  ∃ lines : list string,
    printed (final_trace (format_output_value (concat_values values) tr))
      = printed tr ++ _result_header :: lines ∧
    ∀ n : nat,
      Reference.line (c, n) ∈ lines ↔ n = total ∧ (0 < total)%nat.
Proof.
  intros total. rewrite format_output_value_run. cbn [final_trace].
  exists (Reference.line
            <$> Reference.sorted_items
                  (Reference.tally (concat_values values))).
  split.
  - rewrite printed_app. f_equal. cbn. f_equal.
    rewrite list_fmap_compose. apply printed_lines.
  - intros n. rewrite list_elem_of_fmap. split.
    + intros (item & Hline & Hin). apply line_inj in Hline as <-.
      apply sorted_items_elem in Hin as [-> Hpos].
      rewrite count_concat_values in Hpos |- *. done.
    + intros [-> Hpos]. exists (c, total). split; [done |].
      apply sorted_items_elem. by rewrite count_concat_values.
Qed.

(** ** The driver, end to end *)

Lemma convert_to_timestamp_run (E : env) (relative_time : string)
    (tr : list event) :
  convert_to_timestamp E relative_time tr
    = match chronyk_timestamp E tr relative_time with
      | inl t =>
          Ok (t - t `mod` 60) (tr ++ [EvTimestamp relative_time (inl t)])
      | inr e =>
          if isinstance e TypeError || isinstance e ValueError
          then Raised (SystemExit 1)
                 (tr ++ [EvTimestamp relative_time (inr e);
                         EvPrint _bad_time_received; EvPrint _help_message])
          else Raised e (tr ++ [EvTimestamp relative_time (inr e)])
      end.
Proof.
  unfold convert_to_timestamp, Chronyk_timestamp, ask, try_except,
    mbind, M_bind, mret, M_ret.
  destruct (chronyk_timestamp E tr relative_time) as [t | e]; [done |].
  cbn [find_handler].
  destruct (isinstance e TypeError);
    [cbn; unfold print, emit, sys_exit, raise; by rewrite <- !app_assoc |].
  destruct (isinstance e ValueError); [| done].
  cbn; unfold print, emit, sys_exit, raise; by rewrite <- !app_assoc.
Qed.


(** [main] on a ranged query, stage by stage. *)
Lemma main_ranged_unfold (E : env) (from_value to_value : string)
    (tr : list event) :
  main E ["--from"; from_value; "--to"; to_value] tr
    = match convert_to_timestamp E from_value tr with
      | Raised e tr1 => Raised e tr1
      | Ok from_timestamp tr1 =>
      match convert_to_timestamp E to_value tr1 with
      | Raised e tr2 => Raised e tr2
      | Ok to_timestamp tr2 =>
      match validate_timestamps from_timestamp to_timestamp tr2 with
      | Raised e tr3 => Raised e tr3
      | Ok _ tr3 =>
      match Chronyk_ctime E from_value tr3 with
      | Raised e tr4 => Raised e tr4
      | Ok from_ctime tr4 =>
      match Chronyk_ctime E to_value tr4 with
      | Raised e tr5 => Raised e tr5
      | Ok to_ctime tr5 =>
      match get_summary_record E from_timestamp to_timestamp
              (tr5 ++ [EvPrint (requested_records from_ctime to_ctime)]) with
      | Raised e tr6 =>
          if isinstance e KeyboardInterrupt
          then Raised (SystemExit 1) (tr6 ++ [EvPrint interrupted_message])
          else Raised e tr6
      | Ok summary_record tr6 =>
          Ok true
             (tr6 ++ EvPrint _result_header
                  :: (EvPrint ∘ Reference.line
                        <$> Reference.sorted_items
                              (Reference.tally summary_record)))
      end end end end end end.
Proof.
  unfold main, getitem, dict_get, mbind, M_bind, mret, M_ret.
  cbn [length Nat.eqb lookup list_lookup String.eqb Ascii.eqb Bool.eqb negb].
  rewrite lookup_insert_ne by discriminate.
  rewrite lookup_insert_eq, lookup_insert_eq.
  destruct (convert_to_timestamp E from_value tr)
    as [from_timestamp tr1 | e tr1]; [| done].
  destruct (convert_to_timestamp E to_value tr1)
    as [to_timestamp tr2 | e tr2]; [| done].
  destruct (validate_timestamps from_timestamp to_timestamp tr2)
    as [answer tr3 | e tr3]; [| done].
  destruct (Chronyk_ctime E from_value tr3) as [from_ctime tr4 | e tr4];
    [| done].
  destruct (Chronyk_ctime E to_value tr4) as [to_ctime tr5 | e tr5];
    [| done].
  unfold print at 1, emit at 1, try_except.
  fold (requested_records from_ctime to_ctime).
  destruct (get_summary_record E from_timestamp to_timestamp _)
    as [summary_record tr6 | e tr6].
  - by rewrite format_output_value_run.
  - cbn [find_handler].
    destruct (isinstance e KeyboardInterrupt); [| done].
    unfold print, emit, sys_exit, raise, mbind, M_bind. done.
Qed.

Lemma main_latest_run (E : env) (tr : list event) :
  let last_url := _main_url +:+ "last/" in
  main E [] tr
    = match urlopen_read E tr last_url with
      | inl body =>
          match re_search (Py.str_bytes body) with
          | Some last_record =>
              Ok true
                 (tr ++ EvUrlopen last_url (inl body)
                     :: EvPrint _result_header
                     :: (EvPrint ∘ Reference.line
                           <$> Reference.sorted_items
                                 (Reference.tally last_record)))
          | None => Raised AttributeError (tr ++ [EvUrlopen last_url (inl body)])
          end
      | inr e =>
          if isinstance e IOError
          then Raised UnboundLocalError
                 (tr ++ [EvUrlopen last_url (inr e);
                         EvPrint _host_unreachable])
          else Raised e (tr ++ [EvUrlopen last_url (inr e)])
      end.
Proof.
  intros last_url. unfold main. cbn [length Nat.eqb]. fold last_url.
  unfold mbind at 1, M_bind at 1. unfold mbind at 1, M_bind at 1.
  rewrite get_xml_run.
  destruct (urlopen_read E tr last_url) as [body | e].
  - unfold mbind at 1, M_bind at 1, parse_xml, try_except.
    destruct (re_search (Py.str_bytes body)) as [last_record |];
      [| done].
    unfold mret at 1, M_ret at 1. rewrite format_output_value_run.
    unfold mret, M_ret. by rewrite app_snoc.
  - by destruct (isinstance e IOError).
Qed.

(** X13: what a call without arguments comes to: one request for the latest
    record; from a body with the element, the report on its value and a
    normal return; from a body without it, an [AttributeError]; from a
    failed request, the message that the host is unreachable and an
    [UnboundLocalError], or the exception itself when it is no
    [IOError]. *)
Theorem main_latest_outcome (E : env) (tr : list event) :
  let last_url := _main_url +:+ "last/" in
  main E [] tr
    = match urlopen_read E tr last_url with
      | inl body =>
          match re_search (Py.str_bytes body) with
          | Some last_record =>
              Ok true
                 (tr ++ EvUrlopen last_url (inl body)
                     :: EvPrint _result_header
                     :: (EvPrint ∘ Reference.line
                           <$> Reference.sorted_items
                                 (Reference.tally last_record)))
          | None => Raised AttributeError (tr ++ [EvUrlopen last_url (inl body)])
          end
      | inr e =>
          if isinstance e IOError
          then Raised UnboundLocalError
                 (tr ++ [EvUrlopen last_url (inr e);
                         EvPrint _host_unreachable])
          else Raised e (tr ++ [EvUrlopen last_url (inr e)])
      end.
Proof. exact (main_latest_run E tr). Qed.




(** X15: a [KeyboardInterrupt] that stops the aggregation of a ranged query
    does not escape: [main] prints that the program was interrupted by the
    user and leaves through [sys.exit(1)], with no report. *)
Theorem main_interrupted (E : env) (from_value to_value : string)
    (from_timestamp to_timestamp : Z) (from_ctime to_ctime : string)
    (tr tr1 tr2 tr3 tr4 tr5 : list event) :
  convert_to_timestamp E from_value tr = Ok from_timestamp tr1 →
  convert_to_timestamp E to_value tr1 = Ok to_timestamp tr2 →
  validate_timestamps from_timestamp to_timestamp tr2 = Ok true tr2 →
  Chronyk_ctime E from_value tr2 = Ok from_ctime tr3 →
  Chronyk_ctime E to_value tr3 = Ok to_ctime tr4 →
  get_summary_record E from_timestamp to_timestamp
    (tr4 ++ [EvPrint (requested_records from_ctime to_ctime)])
    = Raised KeyboardInterrupt tr5 →
  main E ["--from"; from_value; "--to"; to_value] tr
    = Raised (SystemExit 1) (tr5 ++ [EvPrint interrupted_message]).
Proof.
  intros Hfrom Hto Hvalid Hc1 Hc2 Hrun.
  rewrite main_ranged_unfold, Hfrom, Hto, Hvalid, Hc1, Hc2, Hrun.
  reflexivity.
Qed.

Lemma main_interrupted_witness :
  main interrupted_env ["--from"; "2 hours ago"; "--to"; "now"] []
    = Raised (SystemExit 1)
        ([EvTimestamp "2 hours ago" (inl 1399992815);
          EvTimestamp "now" (inl 1400000015);
          EvCtime "2 hours ago" (inl "Thu May 13 16:53:20 2014");
          EvCtime "now" (inl "Thu May 13 16:53:20 2014");
          EvPrint (requested_records "Thu May 13 16:53:20 2014"
                     "Thu May 13 16:53:20 2014");
          EvUrlopen "https://beacon.nist.gov/rest/record/1399992780"
            (inr KeyboardInterrupt)]
           ++ [EvPrint interrupted_message]).
Proof.
  apply (main_interrupted interrupted_env "2 hours ago" "now"
           1399992780 1399999980
           "Thu May 13 16:53:20 2014" "Thu May 13 16:53:20 2014"
           []
           [EvTimestamp "2 hours ago" (inl 1399992815)]
           [EvTimestamp "2 hours ago" (inl 1399992815);
            EvTimestamp "now" (inl 1400000015)]
           [EvTimestamp "2 hours ago" (inl 1399992815);
            EvTimestamp "now" (inl 1400000015);
            EvCtime "2 hours ago" (inl "Thu May 13 16:53:20 2014")]
           [EvTimestamp "2 hours ago" (inl 1399992815);
            EvTimestamp "now" (inl 1400000015);
            EvCtime "2 hours ago" (inl "Thu May 13 16:53:20 2014");
            EvCtime "now" (inl "Thu May 13 16:53:20 2014")]);
    vm_compute; reflexivity.
Defined.










(** X16: a ranged query whose resolved bounds do not pass validation stops
    there: after the two calls to Chronyk, [main] prints the one message of
    the check that failed and leaves through [sys.exit(1)]; the times are
    not echoed and no request is sent. *)
Theorem main_validation_failure (E : env) (from_value to_value : string)
    (t1 t2 : Z) (tr : list event) :
  let from_timestamp := t1 - t1 `mod` 60 in
  let to_timestamp := t2 - t2 `mod` 60 in
  let tr1 := tr ++ [EvTimestamp from_value (inl t1)] in
  chronyk_timestamp E tr from_value = inl t1 →
  chronyk_timestamp E tr1 to_value = inl t2 →
  ¬ (_min_timestamp <= from_timestamp <= to_timestamp) →
  main E ["--from"; from_value; "--to"; to_value] tr
    = Raised (SystemExit 1)
        (tr ++ [EvTimestamp from_value (inl t1);
                EvTimestamp to_value (inl t2);
                EvPrint (if to_timestamp <? from_timestamp
                         then _from_less_than_to
                         else _time_less_than_min)]).
Proof.
  intros from_timestamp to_timestamp tr1 Hfrom Hto Hbad.
  rewrite main_ranged_unfold, convert_to_timestamp_run, Hfrom.
  rewrite convert_to_timestamp_run. fold tr1. rewrite Hto.
  rewrite validate_timestamps_run.
  fold from_timestamp to_timestamp.
  destruct (Z.ltb_spec to_timestamp from_timestamp).
  - unfold tr1. by rewrite <- !app_assoc.
  - destruct (Z.ltb_spec from_timestamp _min_timestamp);
      destruct (Z.ltb_spec to_timestamp _min_timestamp); cbn [orb];
      try (unfold tr1; by rewrite <- !app_assoc).
    lia.
Qed.

Lemma main_validation_failure_witness :
  main interrupted_env ["--from"; "now"; "--to"; "2 hours ago"] []
    = Raised (SystemExit 1)
        ([] ++ [EvTimestamp "now" (inl 1400000015);
                EvTimestamp "2 hours ago" (inl 1399992815);
                EvPrint _from_less_than_to]).
Proof.
  apply (main_validation_failure interrupted_env "now" "2 hours ago"
           1400000015 1399992815 []); [reflexivity | reflexivity |].
  vm_compute. intros [_ Hle]. by apply Hle.
Defined.

(** X17: a [--from] phrase that Chronyk rejects with a [ValueError] ends a
    ranged query at once: the bad-time message, the usage text and
    [sys.exit(1)]; the [--to] phrase is not even looked at. *)
Theorem main_bad_phrase (E : env) (from_value to_value : string)
    (tr : list event) :
  chronyk_timestamp E tr from_value = inr ValueError →
  main E ["--from"; from_value; "--to"; to_value] tr
    = Raised (SystemExit 1)
        (tr ++ [EvTimestamp from_value (inr ValueError);
                EvPrint _bad_time_received; EvPrint _help_message]).
Proof.
  intros Hfrom.
  by rewrite main_ranged_unfold, convert_to_timestamp_run, Hfrom.
Qed.

Lemma main_bad_phrase_witness :
  main dead_env ["--from"; "yesterday-ish"; "--to"; "now"] []
    = Raised (SystemExit 1)
        ([] ++ [EvTimestamp "yesterday-ish" (inr ValueError);
                EvPrint _bad_time_received; EvPrint _help_message]).
Proof.
  apply (main_bad_phrase dead_env "yesterday-ish" "now" []). reflexivity.
Defined.

Lemma re_search_first_element_witness :
  re_search ("b'" +:+ "<outputValue>" +:+ "17C4" +:+ "</outputValue>"
             +:+ "<outputValue>FFFF</outputValue>'")
    = Some "17C4".
Proof.
  apply (re_search_first_element "b'" "17C4"
           "<outputValue>FFFF</outputValue>'").
  - intros c Hin. vm_compute in Hin.
    repeat (apply elem_of_cons in Hin as [-> | Hin]; [discriminate |]).
    by apply elem_of_nil in Hin.
  - intros c Hin. vm_compute in Hin.
    repeat (apply elem_of_cons in Hin as [-> | Hin];
            [split; discriminate |]).
    by apply elem_of_nil in Hin.
Defined.
